(** * iGit: the application core of the interactive staging front-end

    A shallow embedding of the Go sources: the layout engine
    ([ui.NewLayout]), the binary-content heuristic ([isBinaryFile]), the
    selection model, the diff cache ([fetchDiffCmd]) and the update loop
    ([Model.Update]) with its key handlers.

    Go's [int] is modelled as [Z] with the 64-bit wrap-around written out,
    Go strings as [string], byte slices as [list byte], Go maps as [gmap],
    [error] values as their text inside an [option]. *)

From Stdlib Require Import ZArith Lia Bool List.
From Stdlib Require Import Strings.String Strings.Ascii Strings.Byte.
From Stdlib Require Import DecimalString.
From stdpp Require Import base option list strings gmap.

Local Open Scope Z_scope.
#[local] Set Warnings "-register-all".

(** ** Go integers *)

Module GoInt.

Definition min_int : Z := - 2 ^ 63.
Definition max_int : Z := 2 ^ 63 - 1.

(** Two's-complement wrap-around of a 64-bit signed integer. *)
Definition wrap (z : Z) : Z := (z + 2 ^ 63) mod 2 ^ 64 - 2 ^ 63.

Definition in_range (z : Z) : Prop := min_int <= z <= max_int.

Definition add (a b : Z) : Z := wrap (a + b).
Definition sub (a b : Z) : Z := wrap (a - b).
Definition mul (a b : Z) : Z := wrap (a * b).
(** Go's [/] truncates toward zero. *)
Definition div (a b : Z) : Z := wrap (Z.quot a b).

(** [%d] of [fmt.Sprintf]. *)
Definition show (z : Z) : string := NilZero.string_of_int (Z.to_int z).

End GoInt.

(** ** Layout engine (package ui) *)

Module Layout.

Record Layout := mkLayout {
  TotalWidth : Z;
  TotalHeight : Z;
  ListWidth : Z;
  PreviewWidth : Z;
  ContentHeight : Z
}.

(** [NewLayout]: the three width bands followed by the two minimum-width
    clamps, in the order of the source. *)
Definition NewLayout (width height : Z) : Layout :=
  let contentHeight0 := GoInt.sub height 5 in
  let contentHeight := if contentHeight0 <? 5 then 5 else contentHeight0 in
  let '(listWidth0, previewWidth0) :=
    if width <? 100 then (GoInt.sub width 2, 0)
    else if width <? 140 then
      let lw := GoInt.div width 2 in
      (lw, GoInt.sub (GoInt.sub width lw) 2)
    else
      let lw := GoInt.div (GoInt.mul width 2) 5 in
      (lw, GoInt.sub (GoInt.sub width lw) 2) in
  let '(listWidth1, previewWidth1) :=
    if listWidth0 <? 30 then (30, 0) else (listWidth0, previewWidth0) in
  let previewWidth2 := if previewWidth1 <? 30 then 0 else previewWidth1 in
  {| TotalWidth := width;
     TotalHeight := height;
     ListWidth := listWidth1;
     PreviewWidth := previewWidth2;
     ContentHeight := contentHeight |}.

Definition HasPreviewPane (l : Layout) : bool := 0 <? PreviewWidth l.

Definition ListHeight (l : Layout) : Z := GoInt.sub (ContentHeight l) 2.

Definition PreviewHeight (l : Layout) : Z := GoInt.sub (ContentHeight l) 2.

End Layout.

(** ** Binary detection (commands.go) *)

Module Binary.

Definition byteZ (b : byte) : Z := Z.of_N (Byte.to_N b).

(** [bytes.Contains(data, []byte{0})]: a NUL anywhere in the buffer. *)
Definition containsNul (data : list byte) : bool :=
  existsb (fun b => byteZ b =? 0) data.

(** [bytes.Contains([]byte{'\t','\n','\r',' '}, []byte{b})]. *)
Definition isCommonWhitespace (b : byte) : bool :=
  existsb (fun w => byteZ b =? w) [9; 10; 13; 32].

(** The condition under which the loop increments [nonTextCount]. *)
Definition isNonText (b : byte) : bool :=
  negb (isCommonWhitespace b)
  && ((byteZ b <? 32) || (126 <? byteZ b))
  && ((byteZ b <? 128) || (191 <? byteZ b)).

Definition sampleSize (data : list byte) : Z :=
  let n := Z.of_nat (length data) in
  if 8192 <? n then 8192 else n.

(** The [for i := 0; i < sampleSize; i++] loop over [data[i]]. *)
Definition nonTextCount (data : list byte) : Z :=
  Z.of_nat (length (filter (fun b => isNonText b = true)
                           (take (Z.to_nat (sampleSize data)) data))).

Definition isBinaryFile (data : list byte) : bool :=
  if containsNul data then true
  else if 0 <? Z.of_nat (length data) then
    let n := nonTextCount data in
    let s := sampleSize data in
    if (0 <? s) && (30 <? GoInt.div (GoInt.mul n 100) s) then true
    else false
  else false.

End Binary.

(** ** Package git: status snapshot and file entries *)

Module Git.

Inductive FileStatus := StatusStaged | StatusUnstaged | StatusUntracked.

Record GitStatus := mkGitStatus {
  Staged : list string;
  Unstaged : list string;
  Untracked : list string;
  Branch : string;
  IsClean : bool
}.

Record CommitInfo := mkCommitInfo {
  Hash : string;
  ShortHash : string;
  Message : string;
  Author : string;
  Date : string;
  IsPushed : bool
}.

Record FileItem := mkFileItem {
  Path : string;
  Status : FileStatus;
  StatusSymbol : string;
  Selected : bool
}.

Definition NewFileItem (path : string) (status : FileStatus) : FileItem :=
  {| Path := path;
     Status := status;
     StatusSymbol := match status with
                     | StatusStaged => "+"
                     | StatusUnstaged => "-"
                     | StatusUntracked => "?"
                     end;
     Selected := false |}.

Definition StagedCount (s : GitStatus) : Z := Z.of_nat (length (Staged s)).
Definition UnstagedCount (s : GitStatus) : Z := Z.of_nat (length (Unstaged s)).
Definition UntrackedCount (s : GitStatus) : Z := Z.of_nat (length (Untracked s)).

(** [AllFiles]: unstaged first, then staged, then untracked. *)
Definition AllFiles (s : GitStatus) : list FileItem :=
  map (fun f => NewFileItem f StatusUnstaged) (Unstaged s)
  ++ map (fun f => NewFileItem f StatusStaged) (Staged s)
  ++ map (fun f => NewFileItem f StatusUntracked) (Untracked s).

Definition set_Selected (v : bool) (f : FileItem) : FileItem :=
  {| Path := Path f; Status := Status f; StatusSymbol := StatusSymbol f;
     Selected := v |}.

Definition FileStatus_eqb (a b : FileStatus) : bool :=
  match a, b with
  | StatusStaged, StatusStaged
  | StatusUnstaged, StatusUnstaged
  | StatusUntracked, StatusUntracked => true
  | _, _ => false
  end.

(** A Go call returning [(T, error)]. *)
Inductive result (A : Type) :=
  | Ok (a : A)
  | Err (e : string).
Arguments Ok {A} a.
Arguments Err {A} e.

(** What lies outside the program: the working tree and the [git]
    executable.  [run_git args] is
    [exec.CommandContext(ctx, "git", args...).CombinedOutput()] in the work
    directory, giving the combined output and the error, if any, as its
    [Error()] text.  [Client.Status] and [Client.GetHeadCommitInfo] parse
    the output of several invocations and are taken at their interface, as
    are [os.ReadFile] and [ValidateCommitDate] (which rests on
    [time.Parse]). *)
Class Backend := {
  Repo : Type;
  run_git : list string -> Repo -> (string * option string) * Repo;
  Client_Status : Repo -> result GitStatus * Repo;
  Client_GetHeadCommitInfo : Repo -> result CommitInfo * Repo;
  os_ReadFile : string -> Repo -> result (list byte) * Repo;
  ValidateCommitDate : string -> result string
}.

(** [strings.Contains]. *)
Fixpoint Contains (s sub : string) : bool :=
  String.prefix sub s
  || match s with
     | EmptyString => false
     | String _ rest => Contains rest sub
     end.

(** *** Methods of [git.Client] *)

Module Client.
Section Methods.
Context `{Backend}.

(** The outside world as a command sees it.  [gitCalls] records, oldest
    first, the argument vector of every [execGit] invocation. *)
Record Sys := mkSys {
  repo : Repo;
  gitCalls : list (list string)
}.

(** [execGit]: on failure the output is dropped from the first result and
    folded into the error text. *)
Definition execGit (args : list string) (w : Sys) : result string * Sys :=
  let '((output, e), r) := run_git args (repo w) in
  let w' := {| repo := r; gitCalls := gitCalls w ++ [args] |} in
  match e with
  | Some e =>
      (Err ("git " +:+ hd "" args +:+ " failed: " +:+ e +:+ String "010" ""
            +:+ output), w')
  | None => (Ok output, w')
  end.

Definition Stage (files : list string) (w : Sys) : option string * Sys :=
  match files with
  | [] => (None, w)
  | _ =>
      match execGit (["add"; "--"] ++ files) w with
      | (Err e, w') => (Some ("failed to stage files: " +:+ e), w')
      | (Ok _, w') => (None, w')
      end
  end.

Definition Unstage (files : list string) (w : Sys) : option string * Sys :=
  match files with
  | [] => (None, w)
  | _ =>
      match execGit (["reset"; "HEAD"; "--"] ++ files) w with
      | (Err e, w') => (Some ("failed to unstage files: " +:+ e), w')
      | (Ok _, w') => (None, w')
      end
  end.

Definition Diff (file : string) (staged : bool) (w : Sys)
  : result string * Sys :=
  let args := ["diff"; "--color=always"]
              ++ (if staged then ["--cached"] else [])
              ++ ["--"; file] in
  match execGit args w with
  | (Err e, w') =>
      (* on failure [execGit] has returned the empty output *)
      if Contains e "exit status 1" then (Ok "", w') else (Err e, w')
  | (Ok output, w') => (Ok output, w')
  end.

Definition Commit (message date : string) (w : Sys) : option string * Sys :=
  if String.eqb message "" then (Some "commit message cannot be empty", w)
  else
    let args := ["commit"; "-m"; message]
                ++ (if String.eqb date "" then [] else ["--date"; date]) in
    match execGit args w with
    | (Err e, w') => (Some ("failed to create commit: " +:+ e), w')
    | (Ok _, w') => (None, w')
    end.

Definition AmendMessage (message : string) (w : Sys) : option string * Sys :=
  if String.eqb message "" then (Some "commit message cannot be empty", w)
  else
    match execGit ["commit"; "--amend"; "-m"; message] w with
    | (Err e, w') => (Some ("failed to amend commit: " +:+ e), w')
    | (Ok _, w') => (None, w')
    end.

Definition SoftResetHead (w : Sys) : option string * Sys :=
  match execGit ["reset"; "--soft"; "HEAD~1"] w with
  | (Err e, w') => (Some ("failed to soft reset HEAD: " +:+ e), w')
  | (Ok _, w') => (None, w')
  end.

Definition Status (w : Sys) : result GitStatus * Sys :=
  let '(r, rp) := Client_Status (repo w) in
  (r, {| repo := rp; gitCalls := gitCalls w |}).

Definition GetHeadCommitInfo (w : Sys) : result CommitInfo * Sys :=
  let '(r, rp) := Client_GetHeadCommitInfo (repo w) in
  (r, {| repo := rp; gitCalls := gitCalls w |}).

Definition ReadFile (path : string) (w : Sys) : result (list byte) * Sys :=
  let '(r, rp) := os_ReadFile path (repo w) in
  (r, {| repo := rp; gitCalls := gitCalls w |}).

End Methods.
End Client.

End Git.

(** ** Package ui: key bindings *)

Module Keys.

(** A [key.Binding]: the key names it answers to, and whether it is
    enabled (bindings built by [key.NewBinding] are). *)
Record Binding := mkBinding {
  bkeys : list string;
  disabled : bool
}.

Definition NewBinding (ks : list string) : Binding :=
  {| bkeys := ks; disabled := false |}.

(** [key.Matches(msg, b)] on the key's [String()]. *)
Definition Matches (k : string) (b : Binding) : bool :=
  negb (disabled b) && existsb (String.eqb k) (bkeys b).

Record KeyMap := mkKeyMap {
  Up : Binding;
  Down : Binding;
  PageUp : Binding;
  PageDown : Binding;
  Home : Binding;
  End_ : Binding;
  Select : Binding;
  SelectAll : Binding;
  Deselect : Binding;
  Apply : Binding;
  Commit : Binding;
  ModifyHead : Binding;
  Search : Binding;
  TogglePreview : Binding;
  ToggleHelp : Binding;
  Quit : Binding
}.

Definition DefaultKeyMap : KeyMap :=
  {| Up := NewBinding ["up"; "k"];
     Down := NewBinding ["down"; "j"];
     PageUp := NewBinding ["pgup"; "b"];
     PageDown := NewBinding ["pgdn"; "f"];
     Home := NewBinding ["home"; "g"];
     End_ := NewBinding ["end"; "G"];
     Select := NewBinding ["space"; "tab"];
     SelectAll := NewBinding ["a"];
     Deselect := NewBinding ["d"];
     Apply := NewBinding ["enter"];
     Commit := NewBinding ["c"];
     ModifyHead := NewBinding ["m"];
     Search := NewBinding ["/"];
     TogglePreview := NewBinding ["p"; "P"];
     ToggleHelp := NewBinding ["?"];
     Quit := NewBinding ["q"; "ctrl+c"] |}.

End Keys.

(** ** The application (package main) *)

Module App.
Import Git Keys.

Inductive AppState :=
  | StateFileList
  | StateCommitMessage
  | StateCommitDate
  | StateModifyHead
  | StateHelp.

Inductive CommitState :=
  | CommitStateMessage
  | CommitStateDate
  | CommitStateConfirm.

Inductive HeadModifyState :=
  | HeadModifyStateMenu
  | HeadModifyStateAmendMessage
  | HeadModifyStateAmendFiles.

Definition AppState_eqb (a b : AppState) : bool :=
  match a, b with
  | StateFileList, StateFileList
  | StateCommitMessage, StateCommitMessage
  | StateCommitDate, StateCommitDate
  | StateModifyHead, StateModifyHead
  | StateHelp, StateHelp => true
  | _, _ => false
  end.

(** The messages the update loop receives.  A [tea.KeyMsg] is carried as
    its [String()]; [OtherMsg] stands for every message type the type
    switch of [Update] has no case for (mouse events, widget ticks). *)
Inductive Msg :=
  | KeyMsg (key : string)
  | WindowSizeMsg (Width Height : Z)
  | gitStatusMsg (status : GitStatus)
  | gitHeadInfoMsg (info : option CommitInfo)
  | errorMsg (err : string)
  | statusMsg (msg : string)
  | gitStageMsg (files : list string) (err : option string)
  | gitUnstageMsg (files : list string) (err : option string)
  | gitRefreshMsg
  | processingMsg (active : bool)
  | gitDiffMsg (file content : string) (err : option string)
  | gitCommitMsg (success : bool) (err : option string) (message : string)
  | gitAmendMsg (success : bool) (err : option string) (message : string)
  | OtherMsg (tag : nat).

(** The widgets of the bubbles library the model embeds, through the
    operations the program calls on them. *)
Class Widgets := {
  ListModel : Type;
  ViewportModel : Type;
  TextArea : Type;
  TextInput : Type;
  WidgetCmd : Type;
  list_Index : ListModel -> Z;
  list_SetItems : list FileItem -> ListModel -> ListModel;
  list_Select : Z -> ListModel -> ListModel;
  list_SetWidth : Z -> ListModel -> ListModel;
  list_SetHeight : Z -> ListModel -> ListModel;
  list_Update : Msg -> ListModel -> ListModel * WidgetCmd;
  viewport_Height : ViewportModel -> Z;
  viewport_set_Width : Z -> ViewportModel -> ViewportModel;
  viewport_set_Height : Z -> ViewportModel -> ViewportModel;
  viewport_SetContent : string -> ViewportModel -> ViewportModel;
  viewport_LineUp : Z -> ViewportModel -> ViewportModel;
  viewport_LineDown : Z -> ViewportModel -> ViewportModel;
  viewport_Update : Msg -> ViewportModel -> ViewportModel * WidgetCmd;
  textarea_Value : TextArea -> string;
  textarea_SetValue : string -> TextArea -> TextArea;
  textarea_Reset : TextArea -> TextArea;
  textarea_Focus : TextArea -> TextArea;
  textarea_Blur : TextArea -> TextArea;
  textarea_Update : Msg -> TextArea -> TextArea * WidgetCmd;
  textinput_Value : TextInput -> string;
  textinput_Reset : TextInput -> TextInput;
  textinput_Focus : TextInput -> TextInput;
  textinput_Blur : TextInput -> TextInput;
  textinput_Update : Msg -> TextInput -> TextInput * WidgetCmd
}.

Section Program.
Context `{Widgets}.

(** A [tea.Cmd] by what it will do when the runtime runs it. *)
Inductive Cmd :=
  | CmdNil
  | CmdQuit
  | CmdBatch (cmds : list Cmd)
  | CmdTick (seconds : Z) (msg : Msg)
  | CmdMsg (msg : Msg)
  | CmdWidget (c : WidgetCmd)
  | CmdFetchGitStatus
  | CmdRefreshStatus
  | CmdStageFiles (files : list FileItem)
  | CmdUnstageFiles (files : list FileItem)
  | CmdToggleSelection (files : list FileItem)
  | CmdFetchDiff (file : FileItem)
  | CmdCommit (message date : string)
  | CmdAmendMessage (message : string)
  | CmdSoftResetHead
  | CmdFetchHeadInfo.

(** [Model].  [gitClient] and [diffCache] are references shared by every
    copy of the model and touched only by running commands: they live in
    [World] below.  [delegate] and [lastStatusMsg] are never read by the
    update loop. *)
Record Model := mkModel {
  state : AppState;
  width : Z;
  height : Z;
  ready : bool;
  err : string;
  status : string;
  processing : bool;
  files : list FileItem;
  gitStatus : GitStatus;
  list_ : ListModel;
  viewport : ViewportModel;
  keys : KeyMap;
  selectedFiles : gmap Z bool;
  showPreview : bool;
  previewFocused : bool;
  lastFileIndex : Z;
  previewContent : string;
  layout : Layout.Layout;
  commitTextarea : TextArea;
  commitInput : TextInput;
  commitMessage : string;
  commitDate : string;
  commitState : CommitState;
  headInfo : option CommitInfo;
  headModifyState : HeadModifyState;
  headMessageTextarea : TextArea
}.

(** Field assignments [m.f = v]. *)
Definition set_state v (m : Model) : Model :=
  mkModel v (width m) (height m) (ready m) (err m) (status m) (processing m)
    (files m) (gitStatus m) (list_ m) (viewport m) (keys m) (selectedFiles m)
    (showPreview m) (previewFocused m) (lastFileIndex m) (previewContent m)
    (layout m) (commitTextarea m) (commitInput m) (commitMessage m)
    (commitDate m) (commitState m) (headInfo m) (headModifyState m)
    (headMessageTextarea m).

Definition set_width v (m : Model) : Model :=
  mkModel (state m) v (height m) (ready m) (err m) (status m) (processing m)
    (files m) (gitStatus m) (list_ m) (viewport m) (keys m) (selectedFiles m)
    (showPreview m) (previewFocused m) (lastFileIndex m) (previewContent m)
    (layout m) (commitTextarea m) (commitInput m) (commitMessage m)
    (commitDate m) (commitState m) (headInfo m) (headModifyState m)
    (headMessageTextarea m).

Definition set_height v (m : Model) : Model :=
  mkModel (state m) (width m) v (ready m) (err m) (status m) (processing m)
    (files m) (gitStatus m) (list_ m) (viewport m) (keys m) (selectedFiles m)
    (showPreview m) (previewFocused m) (lastFileIndex m) (previewContent m)
    (layout m) (commitTextarea m) (commitInput m) (commitMessage m)
    (commitDate m) (commitState m) (headInfo m) (headModifyState m)
    (headMessageTextarea m).

Definition set_ready v (m : Model) : Model :=
  mkModel (state m) (width m) (height m) v (err m) (status m) (processing m)
    (files m) (gitStatus m) (list_ m) (viewport m) (keys m) (selectedFiles m)
    (showPreview m) (previewFocused m) (lastFileIndex m) (previewContent m)
    (layout m) (commitTextarea m) (commitInput m) (commitMessage m)
    (commitDate m) (commitState m) (headInfo m) (headModifyState m)
    (headMessageTextarea m).

Definition set_err v (m : Model) : Model :=
  mkModel (state m) (width m) (height m) (ready m) v (status m)
    (processing m) (files m) (gitStatus m) (list_ m) (viewport m) (keys m)
    (selectedFiles m) (showPreview m) (previewFocused m) (lastFileIndex m)
    (previewContent m) (layout m) (commitTextarea m) (commitInput m)
    (commitMessage m) (commitDate m) (commitState m) (headInfo m)
    (headModifyState m) (headMessageTextarea m).

Definition set_status v (m : Model) : Model :=
  mkModel (state m) (width m) (height m) (ready m) (err m) v (processing m)
    (files m) (gitStatus m) (list_ m) (viewport m) (keys m) (selectedFiles m)
    (showPreview m) (previewFocused m) (lastFileIndex m) (previewContent m)
    (layout m) (commitTextarea m) (commitInput m) (commitMessage m)
    (commitDate m) (commitState m) (headInfo m) (headModifyState m)
    (headMessageTextarea m).

Definition set_processing v (m : Model) : Model :=
  mkModel (state m) (width m) (height m) (ready m) (err m) (status m) v
    (files m) (gitStatus m) (list_ m) (viewport m) (keys m) (selectedFiles m)
    (showPreview m) (previewFocused m) (lastFileIndex m) (previewContent m)
    (layout m) (commitTextarea m) (commitInput m) (commitMessage m)
    (commitDate m) (commitState m) (headInfo m) (headModifyState m)
    (headMessageTextarea m).

Definition set_files v (m : Model) : Model :=
  mkModel (state m) (width m) (height m) (ready m) (err m) (status m)
    (processing m) v (gitStatus m) (list_ m) (viewport m) (keys m)
    (selectedFiles m) (showPreview m) (previewFocused m) (lastFileIndex m)
    (previewContent m) (layout m) (commitTextarea m) (commitInput m)
    (commitMessage m) (commitDate m) (commitState m) (headInfo m)
    (headModifyState m) (headMessageTextarea m).

Definition set_gitStatus v (m : Model) : Model :=
  mkModel (state m) (width m) (height m) (ready m) (err m) (status m)
    (processing m) (files m) v (list_ m) (viewport m) (keys m)
    (selectedFiles m) (showPreview m) (previewFocused m) (lastFileIndex m)
    (previewContent m) (layout m) (commitTextarea m) (commitInput m)
    (commitMessage m) (commitDate m) (commitState m) (headInfo m)
    (headModifyState m) (headMessageTextarea m).

Definition set_list_ v (m : Model) : Model :=
  mkModel (state m) (width m) (height m) (ready m) (err m) (status m)
    (processing m) (files m) (gitStatus m) v (viewport m) (keys m)
    (selectedFiles m) (showPreview m) (previewFocused m) (lastFileIndex m)
    (previewContent m) (layout m) (commitTextarea m) (commitInput m)
    (commitMessage m) (commitDate m) (commitState m) (headInfo m)
    (headModifyState m) (headMessageTextarea m).

Definition set_viewport v (m : Model) : Model :=
  mkModel (state m) (width m) (height m) (ready m) (err m) (status m)
    (processing m) (files m) (gitStatus m) (list_ m) v (keys m)
    (selectedFiles m) (showPreview m) (previewFocused m) (lastFileIndex m)
    (previewContent m) (layout m) (commitTextarea m) (commitInput m)
    (commitMessage m) (commitDate m) (commitState m) (headInfo m)
    (headModifyState m) (headMessageTextarea m).

Definition set_selectedFiles v (m : Model) : Model :=
  mkModel (state m) (width m) (height m) (ready m) (err m) (status m)
    (processing m) (files m) (gitStatus m) (list_ m) (viewport m) (keys m) v
    (showPreview m) (previewFocused m) (lastFileIndex m) (previewContent m)
    (layout m) (commitTextarea m) (commitInput m) (commitMessage m)
    (commitDate m) (commitState m) (headInfo m) (headModifyState m)
    (headMessageTextarea m).

Definition set_showPreview v (m : Model) : Model :=
  mkModel (state m) (width m) (height m) (ready m) (err m) (status m)
    (processing m) (files m) (gitStatus m) (list_ m) (viewport m) (keys m)
    (selectedFiles m) v (previewFocused m) (lastFileIndex m)
    (previewContent m) (layout m) (commitTextarea m) (commitInput m)
    (commitMessage m) (commitDate m) (commitState m) (headInfo m)
    (headModifyState m) (headMessageTextarea m).

Definition set_previewFocused v (m : Model) : Model :=
  mkModel (state m) (width m) (height m) (ready m) (err m) (status m)
    (processing m) (files m) (gitStatus m) (list_ m) (viewport m) (keys m)
    (selectedFiles m) (showPreview m) v (lastFileIndex m) (previewContent m)
    (layout m) (commitTextarea m) (commitInput m) (commitMessage m)
    (commitDate m) (commitState m) (headInfo m) (headModifyState m)
    (headMessageTextarea m).

Definition set_lastFileIndex v (m : Model) : Model :=
  mkModel (state m) (width m) (height m) (ready m) (err m) (status m)
    (processing m) (files m) (gitStatus m) (list_ m) (viewport m) (keys m)
    (selectedFiles m) (showPreview m) (previewFocused m) v (previewContent m)
    (layout m) (commitTextarea m) (commitInput m) (commitMessage m)
    (commitDate m) (commitState m) (headInfo m) (headModifyState m)
    (headMessageTextarea m).

Definition set_previewContent v (m : Model) : Model :=
  mkModel (state m) (width m) (height m) (ready m) (err m) (status m)
    (processing m) (files m) (gitStatus m) (list_ m) (viewport m) (keys m)
    (selectedFiles m) (showPreview m) (previewFocused m) (lastFileIndex m) v
    (layout m) (commitTextarea m) (commitInput m) (commitMessage m)
    (commitDate m) (commitState m) (headInfo m) (headModifyState m)
    (headMessageTextarea m).

Definition set_layout v (m : Model) : Model :=
  mkModel (state m) (width m) (height m) (ready m) (err m) (status m)
    (processing m) (files m) (gitStatus m) (list_ m) (viewport m) (keys m)
    (selectedFiles m) (showPreview m) (previewFocused m) (lastFileIndex m)
    (previewContent m) v (commitTextarea m) (commitInput m) (commitMessage m)
    (commitDate m) (commitState m) (headInfo m) (headModifyState m)
    (headMessageTextarea m).

Definition set_commitTextarea v (m : Model) : Model :=
  mkModel (state m) (width m) (height m) (ready m) (err m) (status m)
    (processing m) (files m) (gitStatus m) (list_ m) (viewport m) (keys m)
    (selectedFiles m) (showPreview m) (previewFocused m) (lastFileIndex m)
    (previewContent m) (layout m) v (commitInput m) (commitMessage m)
    (commitDate m) (commitState m) (headInfo m) (headModifyState m)
    (headMessageTextarea m).

Definition set_commitInput v (m : Model) : Model :=
  mkModel (state m) (width m) (height m) (ready m) (err m) (status m)
    (processing m) (files m) (gitStatus m) (list_ m) (viewport m) (keys m)
    (selectedFiles m) (showPreview m) (previewFocused m) (lastFileIndex m)
    (previewContent m) (layout m) (commitTextarea m) v (commitMessage m)
    (commitDate m) (commitState m) (headInfo m) (headModifyState m)
    (headMessageTextarea m).

Definition set_commitMessage v (m : Model) : Model :=
  mkModel (state m) (width m) (height m) (ready m) (err m) (status m)
    (processing m) (files m) (gitStatus m) (list_ m) (viewport m) (keys m)
    (selectedFiles m) (showPreview m) (previewFocused m) (lastFileIndex m)
    (previewContent m) (layout m) (commitTextarea m) (commitInput m) v
    (commitDate m) (commitState m) (headInfo m) (headModifyState m)
    (headMessageTextarea m).

Definition set_commitDate v (m : Model) : Model :=
  mkModel (state m) (width m) (height m) (ready m) (err m) (status m)
    (processing m) (files m) (gitStatus m) (list_ m) (viewport m) (keys m)
    (selectedFiles m) (showPreview m) (previewFocused m) (lastFileIndex m)
    (previewContent m) (layout m) (commitTextarea m) (commitInput m)
    (commitMessage m) v (commitState m) (headInfo m) (headModifyState m)
    (headMessageTextarea m).

Definition set_commitState v (m : Model) : Model :=
  mkModel (state m) (width m) (height m) (ready m) (err m) (status m)
    (processing m) (files m) (gitStatus m) (list_ m) (viewport m) (keys m)
    (selectedFiles m) (showPreview m) (previewFocused m) (lastFileIndex m)
    (previewContent m) (layout m) (commitTextarea m) (commitInput m)
    (commitMessage m) (commitDate m) v (headInfo m) (headModifyState m)
    (headMessageTextarea m).

Definition set_headInfo v (m : Model) : Model :=
  mkModel (state m) (width m) (height m) (ready m) (err m) (status m)
    (processing m) (files m) (gitStatus m) (list_ m) (viewport m) (keys m)
    (selectedFiles m) (showPreview m) (previewFocused m) (lastFileIndex m)
    (previewContent m) (layout m) (commitTextarea m) (commitInput m)
    (commitMessage m) (commitDate m) (commitState m) v (headModifyState m)
    (headMessageTextarea m).

Definition set_headModifyState v (m : Model) : Model :=
  mkModel (state m) (width m) (height m) (ready m) (err m) (status m)
    (processing m) (files m) (gitStatus m) (list_ m) (viewport m) (keys m)
    (selectedFiles m) (showPreview m) (previewFocused m) (lastFileIndex m)
    (previewContent m) (layout m) (commitTextarea m) (commitInput m)
    (commitMessage m) (commitDate m) (commitState m) (headInfo m) v
    (headMessageTextarea m).

Definition set_headMessageTextarea v (m : Model) : Model :=
  mkModel (state m) (width m) (height m) (ready m) (err m) (status m)
    (processing m) (files m) (gitStatus m) (list_ m) (viewport m) (keys m)
    (selectedFiles m) (showPreview m) (previewFocused m) (lastFileIndex m)
    (previewContent m) (layout m) (commitTextarea m) (commitInput m)
    (commitMessage m) (commitDate m) (commitState m) (headInfo m)
    (headModifyState m) v.

Definition len {A} (l : list A) : Z := Z.of_nat (length l).

(** *** main.go: selection model *)

(** Reading a Go [map[int]bool]: a missing key reads as [false]. *)
Definition isSelected (sel : gmap Z bool) (i : Z) : bool :=
  default false (sel !! i).

(** [m.list.SetItems(items)] with [items] rebuilt from [m.files]. *)
Definition rebuildItems (m : Model) : Model :=
  set_list_ (list_SetItems (files m) (list_ m)) m.

Definition toggleSelection (index : Z) (m : Model) : Model :=
  if (index <? 0) || (len (files m) <=? index) then m
  else
    let v := negb (isSelected (selectedFiles m) index) in
    let m := set_selectedFiles (<[index := v]> (selectedFiles m)) m in
    let m := set_files (alter (set_Selected v) (Z.to_nat index) (files m)) m in
    rebuildItems m.

Definition selectAll (m : Model) : Model :=
  let sel := foldl (fun s i => <[Z.of_nat i := true]> s) (selectedFiles m)
                   (seq 0 (length (files m))) in
  let m := set_selectedFiles sel m in
  let m := set_files (map (set_Selected true) (files m)) m in
  rebuildItems m.

Definition deselectAll (m : Model) : Model :=
  let m := set_selectedFiles ∅ m in
  let m := set_files (map (set_Selected false) (files m)) m in
  rebuildItems m.

(** [for i, f := range m.files { if m.selectedFiles[i] { ... } }]. *)
Fixpoint selectedFrom (i : Z) (sel : gmap Z bool) (fs : list FileItem)
  : list FileItem :=
  match fs with
  | [] => []
  | f :: rest =>
      if isSelected sel i then f :: selectedFrom (i + 1) sel rest
      else selectedFrom (i + 1) sel rest
  end.

Definition getSelectedFiles (m : Model) : list FileItem :=
  selectedFrom 0 (selectedFiles m) (files m).

Definition clearStatus : Cmd := CmdTick 2 (statusMsg "").
Definition clearError : Cmd := CmdTick 3 (errorMsg "").
Definition refreshStatus : Cmd := CmdRefreshStatus.
Definition fetchHeadInfo : Cmd := CmdFetchHeadInfo.

(** [applySelection] has a pointer receiver: it returns the command and
    leaves [processing] set in the caller's model.  Its caller ends in
    [return m, m.applySelection()]; the Go compiler evaluates the call
    before it reads the operand [m], so the model returned carries the
    flag. *)
Definition applySelection (m : Model) : Model * Cmd :=
  let selected := getSelectedFiles m in
  match selected with
  | [] => (m, CmdMsg (statusMsg "No files selected"))
  | _ =>
      let m := set_processing true m in
      (m, CmdBatch [CmdToggleSelection selected; CmdMsg gitRefreshMsg])
  end.

Definition getCurrentFile (m : Model) : option FileItem :=
  let i := list_Index (list_ m) in
  if (i <? 0) || (len (files m) <=? i) then None
  else files m !! Z.to_nat i.

Definition togglePreview (m : Model) : Model :=
  let m := set_showPreview (negb (showPreview m)) m in
  if showPreview m && negb (Layout.HasPreviewPane (layout m))
  then set_layout (Layout.NewLayout (width m) (height m)) m
  else m.

Definition enterCommitMode (m : Model) : Model :=
  let m := set_state StateCommitMessage m in
  let m := set_commitState CommitStateMessage m in
  let m := set_commitMessage "" m in
  let m := set_commitDate "" m in
  let m := set_commitTextarea (textarea_Reset (commitTextarea m)) m in
  set_commitTextarea (textarea_Focus (commitTextarea m)) m.

Definition proceedToDateInput (m : Model) : Model :=
  let m := set_commitState CommitStateDate m in
  let m := set_commitInput (textinput_Reset (commitInput m)) m in
  set_commitInput (textinput_Focus (commitInput m)) m.

Definition cancelCommit (m : Model) : Model :=
  let m := set_state StateFileList m in
  let m := set_commitMessage "" m in
  let m := set_commitDate "" m in
  let m := set_commitTextarea (textarea_Blur (commitTextarea m)) m in
  set_commitInput (textinput_Blur (commitInput m)) m.

Definition enterModifyHeadMode (m : Model) : Model :=
  let m := set_state StateModifyHead m in
  set_headModifyState HeadModifyStateMenu m.

Definition enterAmendMessageMode (m : Model) : Model :=
  let m := set_headModifyState HeadModifyStateAmendMessage m in
  let m := match headInfo m with
           | Some info =>
               set_headMessageTextarea
                 (textarea_SetValue (Message info) (headMessageTextarea m)) m
           | None => m
           end in
  set_headMessageTextarea (textarea_Focus (headMessageTextarea m)) m.

Definition enterAmendFilesMode (m : Model) : Model :=
  let m := set_headModifyState HeadModifyStateAmendFiles m in
  set_status "Performing soft reset..." m.

Definition cancelModifyHead (m : Model) : Model :=
  let m := set_state StateFileList m in
  let m := set_headModifyState HeadModifyStateMenu m in
  let m := set_headMessageTextarea (textarea_Blur (headMessageTextarea m)) m in
  set_headInfo None m.

(** *** update.go: the update loop *)

(** [len(strings.Split(s, "\n"))]: one more than the number of newlines. *)
Fixpoint countLines (s : string) : Z :=
  match s with
  | EmptyString => 1
  | String c rest =>
      if Ascii.eqb c "010"%char then 1 + countLines rest else countLines rest
  end.

(** The body shared, verbatim, by the Up, Down, Home and End cases: let
    the list move its cursor, and fetch the diff of the newly current
    file. *)
Definition navigateList (msg : Msg) (m : Model) : Model * Cmd :=
  let '(l, cmd) := list_Update msg (list_ m) in
  let m := set_list_ l m in
  let currentIndex := list_Index (list_ m) in
  if showPreview m && (0 <=? currentIndex)
     && negb (currentIndex =? lastFileIndex m) then
    let m := set_lastFileIndex currentIndex m in
    match getCurrentFile m with
    | Some currentFile =>
        let m := set_previewContent "" m in
        (m, CmdBatch [CmdWidget cmd; CmdFetchDiff currentFile])
    | None => (m, CmdWidget cmd)
    end
  else (m, CmdWidget cmd).

Definition previewScrolls (m : Model) : bool :=
  previewFocused m
  && (viewport_Height (viewport m) <? countLines (previewContent m)).

Definition handleFileListKeys (key : string) (m : Model) : Model * Cmd :=
  let msg := KeyMsg key in
  if Matches key (Quit (keys m)) then (m, CmdQuit)
  else if Matches key (Select (keys m)) then
    (toggleSelection (list_Index (list_ m)) m, CmdNil)
  else if Matches key (SelectAll (keys m)) then (selectAll m, CmdNil)
  else if Matches key (Deselect (keys m)) then (deselectAll m, CmdNil)
  else if Matches key (TogglePreview (keys m)) then
    if showPreview m && Layout.HasPreviewPane (layout m)
    then (set_previewFocused (negb (previewFocused m)) m, CmdNil)
    else (m, CmdNil)
  else if Matches key (ToggleHelp (keys m)) then
    if AppState_eqb (state m) StateFileList
    then (set_state StateHelp m, CmdNil)
    else (set_state StateFileList m, CmdNil)
  else if Matches key (Up (keys m)) then
    if previewScrolls m
    then (set_viewport (viewport_LineUp 3 (viewport m)) m, CmdNil)
    else navigateList msg m
  else if Matches key (Down (keys m)) then
    if previewScrolls m
    then (set_viewport (viewport_LineDown 3 (viewport m)) m, CmdNil)
    else navigateList msg m
  else if Matches key (Home (keys m)) then navigateList msg m
  else if Matches key (End_ (keys m)) then navigateList msg m
  else if Matches key (Apply (keys m)) then
    let selected := getSelectedFiles m in
    match selected with
    | [] => (set_status "No files selected" m, clearStatus)
    | _ =>
        let m := set_status ("Processing " +:+ GoInt.show (len selected)
                             +:+ " file(s)...") m in
        applySelection m
    end
  else if Matches key (Commit (keys m)) then
    if StagedCount (gitStatus m) =? 0
    then (set_status "No files staged" m, clearStatus)
    else (enterCommitMode m, CmdNil)
  else if Matches key (ModifyHead (keys m)) then
    let m := enterModifyHeadMode m in
    let m := set_processing true m in
    (m, fetchHeadInfo)
  else (m, CmdNil).

Definition handleCommitMessageKeys (key : string) (m : Model) : Model * Cmd :=
  if String.eqb key "ctrl+d" then
    let m := set_commitMessage (textarea_Value (commitTextarea m)) m in
    if String.eqb (commitMessage m) ""
    then (set_err "Commit message cannot be empty" m, clearError)
    else (proceedToDateInput m, CmdNil)
  else if String.eqb key "esc" then (cancelCommit m, CmdNil)
  else
    let '(ta, cmd) := textarea_Update (KeyMsg key) (commitTextarea m) in
    (set_commitTextarea ta m, CmdWidget cmd).

Definition handleCommitDateKeys (key : string) (m : Model) : Model * Cmd :=
  if String.eqb key "enter" then
    let m := set_commitDate (textinput_Value (commitInput m)) m in
    let m := set_commitInput (textinput_Blur (commitInput m)) m in
    let m := set_commitTextarea (textarea_Blur (commitTextarea m)) m in
    (m, CmdCommit (commitMessage m) (commitDate m))
  else if String.eqb key "esc" then
    let m := set_commitState CommitStateMessage m in
    let m := set_commitTextarea (textarea_Focus (commitTextarea m)) m in
    let m := set_commitInput (textinput_Reset (commitInput m)) m in
    (m, CmdNil)
  else
    let '(ti, cmd) := textinput_Update (KeyMsg key) (commitInput m) in
    (set_commitInput ti m, CmdWidget cmd).

Definition handleCommitKeys (key : string) (m : Model) : Model * Cmd :=
  match commitState m with
  | CommitStateMessage => handleCommitMessageKeys key m
  | CommitStateDate => handleCommitDateKeys key m
  | CommitStateConfirm => (m, CmdNil)
  end.

Definition handleHelpKeys (key : string) (m : Model) : Model * Cmd :=
  if Matches key (ToggleHelp (keys m)) || Matches key (Quit (keys m))
  then (set_state StateFileList m, CmdNil)
  else (m, CmdNil).

Definition handleHeadMenuKeys (key : string) (m : Model) : Model * Cmd :=
  if String.eqb key "m" then (enterAmendMessageMode m, CmdNil)
  else if String.eqb key "f" then
    let m := set_processing true m in
    (m, CmdSoftResetHead)
  else if String.eqb key "esc" || String.eqb key "q" then
    (cancelModifyHead m, CmdNil)
  else (m, CmdNil).

Definition handleHeadAmendMessageKeys (key : string) (m : Model)
  : Model * Cmd :=
  if String.eqb key "ctrl+d" then
    let newMessage := textarea_Value (headMessageTextarea m) in
    if String.eqb newMessage ""
    then (set_err "Commit message cannot be empty" m, clearError)
    else
      let m := set_processing true m in
      let m := set_headMessageTextarea
                 (textarea_Blur (headMessageTextarea m)) m in
      (m, CmdAmendMessage newMessage)
  else if String.eqb key "esc" then
    let m := set_headModifyState HeadModifyStateMenu m in
    let m := set_headMessageTextarea
               (textarea_Blur (headMessageTextarea m)) m in
    let m := set_headMessageTextarea
               (textarea_Reset (headMessageTextarea m)) m in
    (m, CmdNil)
  else
    let '(ta, cmd) := textarea_Update (KeyMsg key) (headMessageTextarea m) in
    (set_headMessageTextarea ta m, CmdWidget cmd).

Definition handleHeadAmendFilesKeys (key : string) (m : Model)
  : Model * Cmd :=
  (cancelModifyHead m, CmdNil).

Definition handleModifyHeadKeys (key : string) (m : Model) : Model * Cmd :=
  match headModifyState m with
  | HeadModifyStateMenu => handleHeadMenuKeys key m
  | HeadModifyStateAmendMessage => handleHeadAmendMessageKeys key m
  | HeadModifyStateAmendFiles => handleHeadAmendFilesKeys key m
  end.

Definition handleKeyMsg (key : string) (m : Model) : Model * Cmd :=
  match state m with
  | StateFileList => handleFileListKeys key m
  | StateCommitMessage | StateCommitDate => handleCommitKeys key m
  | StateModifyHead => handleModifyHeadKeys key m
  | StateHelp => handleHelpKeys key m
  end.

(** The tail of [Update], reached by the message types the type switch
    has no case for. *)
Definition updateWidgets (msg : Msg) (m : Model) : Model * Cmd :=
  let '(l, cmd) := list_Update msg (list_ m) in
  let m := set_list_ l m in
  let viewportUpdates (m : Model) : Model * Cmd :=
    let '(_, vpCmd) := viewport_Update msg (viewport m) in
    (m, CmdBatch [CmdWidget cmd; CmdWidget vpCmd]) in
  if showPreview m && ready m && AppState_eqb (state m) StateFileList then
    let currentIndex := list_Index (list_ m) in
    if (0 <=? currentIndex) && negb (currentIndex =? lastFileIndex m) then
      let m := set_lastFileIndex currentIndex m in
      match getCurrentFile m with
      | Some currentFile =>
          let m := set_previewContent "" m in
          (m, CmdFetchDiff currentFile)
      | None => viewportUpdates m
      end
    else viewportUpdates m
  else viewportUpdates m.

Definition Update (msg : Msg) (m : Model) : Model * Cmd :=
  match msg with
  | KeyMsg key =>
      if negb (String.eqb (err m) "") then
        if Matches key (Quit (keys m)) then (m, CmdQuit) else (m, CmdNil)
      else handleKeyMsg key m

  | WindowSizeMsg Width Height =>
      let m := set_width Width m in
      let m := set_height Height m in
      let m := set_ready true m in
      let m := set_layout (Layout.NewLayout (width m) (height m)) m in
      let paneHeight := Layout.ListHeight (layout m) in
      let viewportHeight0 := GoInt.sub paneHeight 3 in
      let viewportHeight :=
        if viewportHeight0 <? 1 then 1 else viewportHeight0 in
      let m :=
        if Layout.HasPreviewPane (layout m) && showPreview m then
          let m := set_list_ (list_SetWidth
                     (GoInt.sub (Layout.ListWidth (layout m)) 4) (list_ m)) m in
          set_viewport (viewport_set_Width
            (GoInt.sub (Layout.PreviewWidth (layout m)) 4) (viewport m)) m
        else
          let m := set_list_ (list_SetWidth (GoInt.sub (width m) 4)
                                            (list_ m)) m in
          set_viewport (viewport_set_Width (GoInt.sub (width m) 4)
                                           (viewport m)) m in
      let m := set_list_ (list_SetHeight paneHeight (list_ m)) m in
      let m := set_viewport (viewport_set_Height viewportHeight
                                                 (viewport m)) m in
      if showPreview m && (0 <? len (files m)) then
        match getCurrentFile m with
        | Some currentFile => (m, CmdFetchDiff currentFile)
        | None => (m, CmdNil)
        end
      else (m, CmdNil)

  | gitStatusMsg status =>
      let m := set_gitStatus status m in
      let m := set_files (AllFiles status) m in
      let m := rebuildItems m in
      let m :=
        if (list_Index (list_ m) <? 0) && (0 <? len (files m))
        then set_list_ (list_Select 0 (list_ m)) m
        else m in
      let noFetch (m : Model) := (set_lastFileIndex (-1) m, CmdNil) in
      if showPreview m && (0 <? len (files m)) && ready m
         && (0 <=? list_Index (list_ m)) then
        let m := set_lastFileIndex (list_Index (list_ m)) m in
        match getCurrentFile m with
        | Some currentFile => (m, CmdFetchDiff currentFile)
        | None => noFetch m
        end
      else noFetch m

  | errorMsg e =>
      let m := set_err e m in
      if String.eqb e "" then (m, CmdNil) else (m, clearError)

  | statusMsg s =>
      let m := set_status s m in
      if String.eqb s "" then (m, CmdNil) else (m, clearStatus)

  | gitStageMsg fs e =>
      let m := set_processing false m in
      match e with
      | Some e => (set_err e m, clearError)
      | None =>
          let m := set_status ("Staged " +:+ GoInt.show (len fs)
                               +:+ " file(s)") m in
          let m := deselectAll m in
          (m, CmdBatch [refreshStatus; clearStatus])
      end

  | gitUnstageMsg fs e =>
      let m := set_processing false m in
      match e with
      | Some e => (set_err e m, clearError)
      | None =>
          let m := set_status ("Unstaged " +:+ GoInt.show (len fs)
                               +:+ " file(s)") m in
          let m := deselectAll m in
          (m, CmdBatch [refreshStatus; clearStatus])
      end

  | gitRefreshMsg => (m, refreshStatus)

  | gitDiffMsg file content e =>
      let m :=
        match e with
        | Some e => set_previewContent ("Error loading diff: " +:+ e) m
        | None => set_previewContent content m
        end in
      let m := set_viewport
                 (viewport_SetContent (previewContent m) (viewport m)) m in
      (m, CmdNil)

  | gitCommitMsg success e message =>
      match e with
      | Some e => (set_err ("Commit failed: " +:+ e) m, clearError)
      | None =>
          let m := set_status message m in
          let m := set_state StateFileList m in
          let m := set_commitMessage "" m in
          let m := set_commitDate "" m in
          (m, CmdBatch [refreshStatus; clearStatus])
      end

  | gitHeadInfoMsg info => (set_headInfo info m, CmdNil)

  | gitAmendMsg success e message =>
      match e with
      | Some e => (set_err ("Amendment failed: " +:+ e) m, clearError)
      | None =>
          let m := set_status message m in
          let m := set_state StateFileList m in
          let m := set_headInfo None m in
          (m, CmdBatch [refreshStatus; clearStatus])
      end

  | processingMsg _ | OtherMsg _ => updateWidgets msg m
  end.

(** *** commands.go: the units of work *)

Context `{Backend}.

(** What a running command can reach: the outside world through
    [m.gitClient], and the [diffCache] map, which every copy of the model
    shares. *)
Record World := mkWorld {
  sys : Client.Sys;
  diffCache : gmap string string
}.

Definition set_sys (s : Client.Sys) (w : World) : World :=
  {| sys := s; diffCache := diffCache w |}.

Definition isStaged (f : FileItem) : bool :=
  FileStatus_eqb (Status f) StatusStaged.

Definition stageFilesCmd (files : list FileItem) (w : World) : Msg * World :=
  let filePaths := map Path (List.filter (fun f => negb (isStaged f)) files) in
  match filePaths with
  | [] => (statusMsg "No files to stage", w)
  | _ =>
      match Client.Stage filePaths (sys w) with
      | (Some e, s) =>
          (errorMsg ("Failed to stage files: " +:+ e), set_sys s w)
      | (None, s) => (gitStageMsg filePaths None, set_sys s w)
      end
  end.

Definition unstageFilesCmd (files : list FileItem) (w : World)
  : Msg * World :=
  let filePaths := map Path (List.filter isStaged files) in
  match filePaths with
  | [] => (statusMsg "No files to unstage", w)
  | _ =>
      match Client.Unstage filePaths (sys w) with
      | (Some e, s) =>
          (errorMsg ("Failed to unstage files: " +:+ e), set_sys s w)
      | (None, s) => (gitUnstageMsg filePaths None, set_sys s w)
      end
  end.

Definition refreshStatusCmd (w : World) : Msg * World :=
  match Client.Status (sys w) with
  | (Err e, s) => (errorMsg ("Failed to refresh status: " +:+ e), set_sys s w)
  | (Ok status, s) => (gitStatusMsg status, set_sys s w)
  end.

Definition fetchGitStatus (w : World) : Msg * World :=
  match Client.Status (sys w) with
  | (Err e, s) => (errorMsg ("Failed to get git status: " +:+ e), set_sys s w)
  | (Ok status, s) => (gitStatusMsg status, set_sys s w)
  end.

Definition toggleSelectionCmd (files : list FileItem) (w : World)
  : Msg * World :=
  let staged := map Path (List.filter isStaged files) in
  let unstaged := map Path (List.filter (fun f => negb (isStaged f)) files) in
  if len staged <? len unstaged then
    match Client.Stage unstaged (sys w) with
    | (Some e, s) =>
        (errorMsg ("Failed to stage files: " +:+ e), set_sys s w)
    | (None, s) =>
        (statusMsg ("Staged " +:+ GoInt.show (len unstaged) +:+ " file(s)"),
         set_sys s w)
    end
  else
    match Client.Unstage staged (sys w) with
    | (Some e, s) =>
        (errorMsg ("Failed to unstage files: " +:+ e), set_sys s w)
    | (None, s) =>
        (statusMsg ("Unstaged " +:+ GoInt.show (len staged) +:+ " file(s)"),
         set_sys s w)
    end.

Definition binaryPlaceholder : string := "[BINARY] File cannot be previewed".

(** [string(contentBytes)], or the placeholder for binary content. *)
Definition previewOfBytes (contentBytes : list byte) : string :=
  if Binary.isBinaryFile contentBytes then binaryPlaceholder
  else string_of_list_byte contentBytes.

(** The [switch file.Status]: either an early return (left) or the pair
    [content, err] (right). *)
Definition fetchByStatus (file : FileItem) (s : Client.Sys)
  : (Msg + result string) * Client.Sys :=
  match Status file with
  | StatusStaged =>
      let '(r, s) := Client.Diff (Path file) true s in (inr r, s)
  | StatusUnstaged =>
      let '(r, s) := Client.Diff (Path file) false s in (inr r, s)
  | StatusUntracked =>
      match Client.ReadFile (Path file) s with
      | (Err readErr, s) =>
          (inl (gitDiffMsg (Path file)
                           ("Error reading file: " +:+ readErr) None), s)
      | (Ok contentBytes, s) => (inr (Ok (previewOfBytes contentBytes)), s)
      end
  end.

Definition fetchDiffCmd (file : FileItem) (w : World) : Msg * World :=
  match diffCache w !! Path file with
  | Some content => (gitDiffMsg (Path file) content None, w)
  | None =>
      match fetchByStatus file (sys w) with
      | (inl early, s) => (early, set_sys s w)
      | (inr (Err e), s) =>
          (gitDiffMsg (Path file) ("Error loading diff: " +:+ e) None,
           set_sys s w)
      | (inr (Ok content), s) =>
          let '(content, s) :=
            if String.eqb content ""
               && negb (FileStatus_eqb (Status file) StatusUntracked) then
              match Client.ReadFile (Path file) s with
              | (Ok contentBytes, s) => (previewOfBytes contentBytes, s)
              | (Err readErr, s) =>
                  ("(File has no changes)" +:+ String "010" (String "010" "")
                   +:+ "Could not read file: " +:+ readErr, s)
              end
            else (content, s) in
          (gitDiffMsg (Path file) content None,
           {| sys := s; diffCache := <[Path file := content]> (diffCache w) |})
      end
  end.

Definition commitCmd (message date : string) (w : World) : Msg * World :=
  let validated :=
    if String.eqb date "" then Ok "" else ValidateCommitDate date in
  match validated with
  | Err e => (gitCommitMsg false (Some e) "", w)
  | Ok validatedDate =>
      match Client.Commit message validatedDate (sys w) with
      | (Some e, s) => (gitCommitMsg false (Some e) "", set_sys s w)
      | (None, s) =>
          (gitCommitMsg true None "[OK] Commit created successfully",
           set_sys s w)
      end
  end.

Definition amendMessageCmd (message : string) (w : World) : Msg * World :=
  if String.eqb message "" then
    (gitAmendMsg false (Some "commit message cannot be empty") "", w)
  else
    match Client.AmendMessage message (sys w) with
    | (Some e, s) => (gitAmendMsg false (Some e) "", set_sys s w)
    | (None, s) =>
        (gitAmendMsg true None "[OK] Commit message amended successfully",
         set_sys s w)
    end.

Definition softResetHeadCmd (w : World) : Msg * World :=
  match Client.SoftResetHead (sys w) with
  | (Some e, s) => (gitAmendMsg false (Some e) "", set_sys s w)
  | (None, s) =>
      (gitAmendMsg true None
         "[OK] HEAD soft reset successfully. Changes staged.", set_sys s w)
  end.

Definition fetchHeadInfoCmd (w : World) : Msg * World :=
  match Client.GetHeadCommitInfo (sys w) with
  | (Err e, s) => (errorMsg ("Failed to get HEAD info: " +:+ e), set_sys s w)
  | (Ok info, s) => (gitHeadInfoMsg (Some info), set_sys s w)
  end.

(** Running one command: the message it posts, if it posts one.  A batch
    is a set of commands the runtime runs on their own, and a widget's
    command is opaque. *)
Definition runCmd (c : Cmd) (w : World) : option (Msg * World) :=
  match c with
  | CmdNil | CmdQuit | CmdBatch _ | CmdWidget _ => None
  | CmdTick _ msg | CmdMsg msg => Some (msg, w)
  | CmdFetchGitStatus => Some (fetchGitStatus w)
  | CmdRefreshStatus => Some (refreshStatusCmd w)
  | CmdStageFiles fs => Some (stageFilesCmd fs w)
  | CmdUnstageFiles fs => Some (unstageFilesCmd fs w)
  | CmdToggleSelection fs => Some (toggleSelectionCmd fs w)
  | CmdFetchDiff f => Some (fetchDiffCmd f w)
  | CmdCommit message date => Some (commitCmd message date w)
  | CmdAmendMessage message => Some (amendMessageCmd message w)
  | CmdSoftResetHead => Some (softResetHeadCmd w)
  | CmdFetchHeadInfo => Some (fetchHeadInfoCmd w)
  end.

End Program.
End App.

(** ** A small working tree and plain widgets, for running scenarios *)

Module Sim.
Import Git Keys App.

(** A working tree: the snapshot [git status] would report, the files on
    disk, and the error every [git] invocation fails with, if any. *)
Record Tree := mkTree {
  snapshot : GitStatus;
  disk : list (string * list byte);
  gitError : option string
}.

Definition without (fs : list string) (l : list string) : list string :=
  List.filter (fun x => negb (existsb (String.eqb x) fs)) l.

Definition stagePaths (fs : list string) (t : Tree) : Tree :=
  let s := snapshot t in
  {| snapshot := {| Staged := Staged s ++ fs;
                    Unstaged := without fs (Unstaged s);
                    Untracked := without fs (Untracked s);
                    Branch := Branch s;
                    IsClean := IsClean s |};
     disk := disk t; gitError := gitError t |}.

Definition unstagePaths (fs : list string) (t : Tree) : Tree :=
  let s := snapshot t in
  {| snapshot := {| Staged := without fs (Staged s);
                    Unstaged := Unstaged s ++ fs;
                    Untracked := Untracked s;
                    Branch := Branch s;
                    IsClean := IsClean s |};
     disk := disk t; gitError := gitError t |}.

(** [Client.Status] derives [IsClean] from the three lists. *)
Definition report (t : Tree) : GitStatus :=
  let s := snapshot t in
  {| Staged := Staged s; Unstaged := Unstaged s; Untracked := Untracked s;
     Branch := Branch s;
     IsClean := match Staged s, Unstaged s, Untracked s with
                | [], [], [] => true
                | _, _, _ => false
                end |}.

Definition tree_run_git (args : list string) (t : Tree)
  : (string * option string) * Tree :=
  match gitError t with
  | Some e => (("", Some e), t)
  | None =>
      match args with
      | "add" :: "--" :: fs => (("", None), stagePaths fs t)
      | "reset" :: "HEAD" :: "--" :: fs => (("", None), unstagePaths fs t)
      | "diff" :: rest => (("diff --git " +:+ List.last rest "", None), t)
      | _ => (("", None), t)
      end
  end.

Definition tree_ReadFile (path : string) (t : Tree)
  : result (list byte) * Tree :=
  match List.find (fun e => String.eqb (fst e) path) (disk t) with
  | Some e => (Ok (snd e), t)
  | None => (Err ("open " +:+ path +:+ ": no such file or directory"), t)
  end.

Definition headOfTree : CommitInfo :=
  {| Hash := "4f2a9c1d"; ShortHash := "4f2a"; Message := "initial";
     Author := "dev"; Date := "2 hours ago"; IsPushed := false |}.

#[export] Instance TreeBackend : Backend := {|
  Repo := Tree;
  run_git := tree_run_git;
  Client_Status := fun t =>
    match gitError t with
    | Some e => (Err e, t)
    | None => (Ok (report t), t)
    end;
  Client_GetHeadCommitInfo := fun t =>
    match gitError t with
    | Some e => (Err ("failed to get HEAD hash: " +:+ e), t)
    | None => (Ok headOfTree, t)
    end;
  os_ReadFile := tree_ReadFile;
  ValidateCommitDate := fun d => Ok d
|}.

(** Plain widgets: a list with a cursor, a viewport holding text, and text
    fields holding a value. *)
Record PlainList := mkPlainList {
  items : list FileItem;
  cursor : Z;
  listSize : Z * Z
}.

Record PlainViewport := mkPlainViewport {
  vpSize : Z * Z;
  vpContent : string;
  vpOffset : Z
}.

Record PlainText := mkPlainText {
  value : string;
  focused : bool
}.

Definition plainList_Update (msg : Msg) (l : PlainList) : PlainList * unit :=
  let last := Z.of_nat (length (items l)) - 1 in
  let move c := ({| items := items l; cursor := c; listSize := listSize l |}, tt) in
  match msg with
  | KeyMsg "up" | KeyMsg "k" => move (Z.max 0 (cursor l - 1))
  | KeyMsg "down" | KeyMsg "j" => move (Z.max 0 (Z.min last (cursor l + 1)))
  | KeyMsg "home" | KeyMsg "g" => move 0
  | KeyMsg "end" | KeyMsg "G" => move (Z.max 0 last)
  | _ => (l, tt)
  end.

Definition plainText_Update (msg : Msg) (t : PlainText) : PlainText * unit :=
  match msg with
  | KeyMsg (String c "") =>
      ({| value := value t +:+ String c ""; focused := focused t |}, tt)
  | _ => (t, tt)
  end.

Definition setFocused (b : bool) (t : PlainText) : PlainText :=
  {| value := value t; focused := b |}.

#[export] Instance PlainWidgets : Widgets := {|
  ListModel := PlainList;
  ViewportModel := PlainViewport;
  TextArea := PlainText;
  TextInput := PlainText;
  WidgetCmd := unit;
  list_Index := cursor;
  list_SetItems := fun its l =>
    {| items := its; cursor := cursor l; listSize := listSize l |};
  list_Select := fun i l =>
    {| items := items l; cursor := i; listSize := listSize l |};
  list_SetWidth := fun w l =>
    {| items := items l; cursor := cursor l; listSize := (w, snd (listSize l)) |};
  list_SetHeight := fun h l =>
    {| items := items l; cursor := cursor l; listSize := (fst (listSize l), h) |};
  list_Update := plainList_Update;
  viewport_Height := fun v => snd (vpSize v);
  viewport_set_Width := fun w v =>
    {| vpSize := (w, snd (vpSize v)); vpContent := vpContent v;
       vpOffset := vpOffset v |};
  viewport_set_Height := fun h v =>
    {| vpSize := (fst (vpSize v), h); vpContent := vpContent v;
       vpOffset := vpOffset v |};
  viewport_SetContent := fun s v =>
    {| vpSize := vpSize v; vpContent := s; vpOffset := vpOffset v |};
  viewport_LineUp := fun n v =>
    {| vpSize := vpSize v; vpContent := vpContent v;
       vpOffset := Z.max 0 (vpOffset v - n) |};
  viewport_LineDown := fun n v =>
    {| vpSize := vpSize v; vpContent := vpContent v;
       vpOffset := vpOffset v + n |};
  viewport_Update := fun _ v => (v, tt);
  textarea_Value := value;
  textarea_SetValue := fun s t => {| value := s; focused := focused t |};
  textarea_Reset := fun t => {| value := ""; focused := focused t |};
  textarea_Focus := setFocused true;
  textarea_Blur := setFocused false;
  textarea_Update := plainText_Update;
  textinput_Value := value;
  textinput_Reset := fun t => {| value := ""; focused := focused t |};
  textinput_Focus := setFocused true;
  textinput_Blur := setFocused false;
  textinput_Update := plainText_Update
|}.

Definition emptyStatus : GitStatus :=
  {| Staged := []; Unstaged := []; Untracked := []; Branch := "main";
     IsClean := true |}.

(** The model [NewModel] builds. *)
Definition NewModel : Model :=
  {| state := StateFileList;
     width := 0; height := 0; ready := false; err := ""; status := "";
     processing := false;
     files := []; gitStatus := emptyStatus;
     list_ := {| items := []; cursor := 0; listSize := (0, 0) |};
     viewport := {| vpSize := (0, 0); vpContent := ""; vpOffset := 0 |};
     keys := DefaultKeyMap;
     selectedFiles := ∅;
     showPreview := true; previewFocused := false; lastFileIndex := -1;
     previewContent := "";
     layout := Layout.NewLayout 80 24;
     commitTextarea := {| value := ""; focused := false |};
     commitInput := {| value := ""; focused := false |};
     commitMessage := ""; commitDate := "";
     commitState := CommitStateMessage;
     headInfo := None;
     headModifyState := HeadModifyStateMenu;
     headMessageTextarea := {| value := ""; focused := false |} |}.

Definition worldOf (t : Tree) : World :=
  {| sys := {| Client.repo := t; Client.gitCalls := [] |}; diffCache := ∅ |}.

(** Feeding messages to the update loop in order, dropping the commands. *)
Definition feed (msgs : list Msg) (m : Model) : Model :=
  foldl (fun m msg => fst (Update msg m)) m msgs.

(** *** Scenarios *)

Definition snapshotOf (staged unstaged untracked : list string) : GitStatus :=
  {| Staged := staged; Unstaged := unstaged; Untracked := untracked;
     Branch := "main"; IsClean := false |}.

(** One unstaged file, [a.txt]. *)
Definition snapA : GitStatus := snapshotOf [] ["a.txt"] [].
(** The same file once staged. *)
Definition snapStaged : GitStatus := snapshotOf ["a.txt"] [] [].
(** Two unstaged files. *)
Definition snapAB : GitStatus := snapshotOf [] ["a.txt"; "b.txt"] [].

Definition treeA : Tree :=
  {| snapshot := snapA; disk := [("a.txt", ["h"; "i"]%byte)];
     gitError := None |}.

(** The same tree when every [git] invocation runs into the timeout. *)
Definition brokenTree : Tree :=
  {| snapshot := snapA; disk := [("a.txt", ["h"; "i"]%byte)];
     gitError := Some "signal: killed" |}.

Definition a_unstaged : FileItem := NewFileItem "a.txt" StatusUnstaged.
Definition a_marked : FileItem := set_Selected true a_unstaged.

(** The file list showing [snapA] in a 100 by 30 terminal. *)
Definition m_listed : Model :=
  feed [WindowSizeMsg 100 30; gitStatusMsg snapA] NewModel.

(** ... with [a.txt] marked by the select key. *)
Definition m_marked : Model := feed [KeyMsg "tab"] m_listed.

(** Two files listed, the cursor moved down to [b.txt]. *)
Definition m_on_b : Model :=
  feed [WindowSizeMsg 100 30; gitStatusMsg snapAB; KeyMsg "down"] NewModel.

(** The commit flow at its date step, with the message "fix" typed. *)
Definition m_date : Model :=
  feed [WindowSizeMsg 100 30; gitStatusMsg snapStaged; KeyMsg "c";
        KeyMsg "f"; KeyMsg "i"; KeyMsg "x"; KeyMsg "ctrl+d"] NewModel.

(** The HEAD-modification menu. *)
Definition m_menu : Model := feed [KeyMsg "m"] m_listed.

(** The outcome of the apply key on the marked file, once the three
    messages it gives rise to have been applied. *)
Definition m_applied : Model :=
  feed [statusMsg "Staged 1 file(s)"; gitRefreshMsg; gitStatusMsg snapStaged]
       (fst (Update (KeyMsg "enter") m_marked)).

(** Thirteen bytes, four of them control characters: 30.77% non-text. *)
Definition buf13 : list byte := repeat x01 4 ++ repeat "a"%byte 9.

(** 8 KiB of text followed by a single NUL. *)
Definition bufLateNul : list byte :=
  repeat "a"%byte (Z.to_nat 8192) ++ [x00].

End Sim.

(** ** The properties under study, as the specification words them *)

Module Stated.
Import Git Keys App.

(** A narrow terminal has no preview and a list two columns short of the
    width. *)
Definition narrow_layout : Prop :=
  forall width height, width < 100 ->
    Layout.HasPreviewPane (Layout.NewLayout width height) = false
    /\ Layout.ListWidth (Layout.NewLayout width height) = width - 2.

(** The byte set the heuristic counts as text. *)
Definition allowedByte (b : byte) : Prop :=
  Binary.byteZ b = 9 \/ Binary.byteZ b = 10 \/ Binary.byteZ b = 13
  \/ 32 <= Binary.byteZ b <= 126 \/ 128 <= Binary.byteZ b <= 191.

(** A backend diff call: an [execGit] invocation of [git diff]. *)
Definition isDiffCall (args : list string) : bool :=
  String.eqb (hd "" args) "diff".

Section Stated.
Context `{W : Widgets} `{B : Backend}.

Definition diffCalls (s : Client.Sys) : nat :=
  length (List.filter isDiffCall (Client.gitCalls s)).

(** A diff result for a file other than the current one is dropped. *)
Definition stale_diff_discarded : Prop :=
  forall (m : Model) file content e,
    Path <$> getCurrentFile m <> Some file ->
    Update (gitDiffMsg file content e) m = (m, CmdNil).

(** The text a diff result puts in the preview. *)
Definition diffText (content : string) (e : option string) : string :=
  match e with
  | Some e => "Error loading diff: " +:+ e
  | None => content
  end.

(** Commands that reach the backend. *)
Definition touchesBackend (c : Cmd) : bool :=
  match c with
  | CmdFetchGitStatus | CmdRefreshStatus | CmdStageFiles _
  | CmdUnstageFiles _ | CmdToggleSelection _ | CmdFetchDiff _
  | CmdCommit _ _ | CmdAmendMessage _ | CmdSoftResetHead
  | CmdFetchHeadInfo => true
  | _ => false
  end.

(** [processing] is raised by every dispatch and lowered by its result. *)
Definition processing_brackets_dispatch : Prop :=
  forall (m : Model) key w msg w',
    touchesBackend (snd (Update (KeyMsg key) m)) = true ->
    runCmd (snd (Update (KeyMsg key) m)) w = Some (msg, w') ->
    processing (fst (Update (KeyMsg key) m)) = true
    /\ processing (fst (Update msg (fst (Update (KeyMsg key) m)))) = false.

(** Two models that agree on every field but [processing]. *)
Definition sameButProcessing (m1 m2 : Model) : Prop :=
  set_processing false m1 = set_processing false m2.

(** The soft reset leads back to the file list whatever its outcome. *)
Definition soft_reset_always_returns : Prop :=
  forall (m : Model) w msg w',
    err m = "" -> state m = StateModifyHead ->
    headModifyState m = HeadModifyStateMenu ->
    snd (Update (KeyMsg "f") m) = CmdSoftResetHead
    /\ (runCmd CmdSoftResetHead w = Some (msg, w') ->
        state (fst (Update msg (fst (Update (KeyMsg "f") m))))
        = StateFileList).

(** Two requests for one path cost one backend diff call, whatever the
    path. *)
Definition two_fetches_one_call : Prop :=
  forall (file : FileItem) (w : World),
    diffCache w !! Path file = None ->
    let w1 := snd (fetchDiffCmd file w) in
    let w2 := snd (fetchDiffCmd file w1) in
    diffCalls (sys w2) = S (diffCalls (sys w))
    /\ fst (fetchDiffCmd file w1) = fst (fetchDiffCmd file w).

(** Messages other than key presses and stage or unstage results. *)
Definition keepsSelection (msg : Msg) : bool :=
  match msg with
  | KeyMsg _ | gitStageMsg _ _ | gitUnstageMsg _ _ => false
  | _ => true
  end.

End Stated.
End Stated.

(** ** Go's strings package, as far as the status parser uses it *)

Module GoStrings.

(** The bytes [strings.TrimSpace] treats as space on its ASCII path:
    tab, line feed, vertical tab, form feed, carriage return, space. *)
Definition isAsciiSpace (c : ascii) : bool :=
  existsb (Ascii.eqb c) ["009"; "010"; "011"; "012"; "013"; " "]%char.

(** [c < utf8.RuneSelf]. *)
Definition isAscii (c : ascii) : bool := (N_of_ascii c <? 128)%N.

Section TrimSpace.
(** [strings.TrimFunc(s, unicode.IsSpace)] and
    [strings.TrimRightFunc(s, unicode.IsSpace)], which [TrimSpace] falls
    back on when it meets a byte outside ASCII. *)
Variable TrimFunc_IsSpace : string -> string.
Variable TrimRightFunc_IsSpace : string -> string.

(** The second loop of [TrimSpace], on the bytes from the last one
    backwards: what is left (still reversed), or the point at which the
    loop gives up on ASCII. *)
Fixpoint scanRight (rev_s : list ascii) : list ascii + list ascii :=
  match rev_s with
  | [] => inl []
  | c :: rest =>
      if negb (isAscii c) then inr rev_s
      else if isAsciiSpace c then scanRight rest
      else inl rev_s
  end.

Definition trimRightSpace (s : string) : string :=
  match scanRight (rev (list_ascii_of_string s)) with
  | inl kept => string_of_list_ascii (rev kept)
  | inr kept => TrimRightFunc_IsSpace (string_of_list_ascii (rev kept))
  end.

(** [strings.TrimSpace]: the first loop walks over leading ASCII space. *)
Fixpoint TrimSpace (s : string) : string :=
  match s with
  | EmptyString => trimRightSpace s
  | String c rest =>
      if negb (isAscii c) then TrimFunc_IsSpace s
      else if isAsciiSpace c then TrimSpace rest
      else trimRightSpace s
  end.

End TrimSpace.

(** An ASCII byte that is not space. *)
Definition plain (c : ascii) : bool := isAscii c && negb (isAsciiSpace c).

(** A string with no line feed in it. *)
Definition noNewline (s : string) : Prop :=
  Forall (fun c => Ascii.eqb c "010" = false) (list_ascii_of_string s).

(** [strings.Split(s, "\n")]. *)
Fixpoint SplitLines (s : string) : list string :=
  match s with
  | EmptyString => [EmptyString]
  | String c rest =>
      if Ascii.eqb c "010"%char then EmptyString :: SplitLines rest
      else match SplitLines rest with
           | line :: lines => String c line :: lines
           | [] => [String c EmptyString]
           end
  end.

Fixpoint trimLeftByte (c : ascii) (s : string) : string :=
  match s with
  | String d rest => if Ascii.eqb d c then trimLeftByte c rest else s
  | EmptyString => s
  end.

Definition trimRightByte (c : ascii) (s : string) : string :=
  string_of_list_ascii
    (rev (list_ascii_of_string
            (trimLeftByte c (string_of_list_ascii
                               (rev (list_ascii_of_string s)))))).

(** [strings.Trim(s, cutset)] for a cutset of one ASCII byte. *)
Definition TrimByte (c : ascii) (s : string) : string :=
  trimLeftByte c (trimRightByte c s).

End GoStrings.

(** ** git/status.go: reading the porcelain status *)

Module Porcelain.
Import Git GoStrings.

(** [GitStatus{}]. *)
Definition zeroStatus : GitStatus :=
  {| Staged := []; Unstaged := []; Untracked := []; Branch := "";
     IsClean := false |}.

Definition addStaged (p : string) (s : GitStatus) : GitStatus :=
  {| Staged := Staged s ++ [p]; Unstaged := Unstaged s;
     Untracked := Untracked s; Branch := Branch s; IsClean := IsClean s |}.

Definition addUnstaged (p : string) (s : GitStatus) : GitStatus :=
  {| Staged := Staged s; Unstaged := Unstaged s ++ [p];
     Untracked := Untracked s; Branch := Branch s; IsClean := IsClean s |}.

Definition addUntracked (p : string) (s : GitStatus) : GitStatus :=
  {| Staged := Staged s; Unstaged := Unstaged s;
     Untracked := Untracked s ++ [p]; Branch := Branch s;
     IsClean := IsClean s |}.

(** The body of the loop over the lines: [x] is [line[0]], [y] is
    [line[1]] and the path is [line[3:]] without surrounding quotes. *)
Definition parseLine (status : GitStatus) (line : string) : GitStatus :=
  if String.eqb line "" then status
  else if Z.of_nat (String.length line) <? 4 then status
  else
    match line with
    | String x (String y (String _ rest)) =>
        let filepath := TrimByte "034"%char rest in
        if negb (Ascii.eqb x " ") && negb (Ascii.eqb x "?")
        then addStaged filepath status
        else if negb (Ascii.eqb y " ")
        then addUnstaged filepath status
        else if Ascii.eqb x "?" && Ascii.eqb y "?"
        then addUntracked filepath status
        else status
    | _ => status
    end.

Section Parser.
Variable TrimFunc_IsSpace : string -> string.
Variable TrimRightFunc_IsSpace : string -> string.

Definition parseStatusOutput (output : string) : GitStatus :=
  fold_left parseLine
    (SplitLines (TrimSpace TrimFunc_IsSpace TrimRightFunc_IsSpace output))
    zeroStatus.

Context `{Backend}.

(** [CurrentBranch]: the output less one trailing newline. *)
Definition CurrentBranch (w : Client.Sys) : result string * Client.Sys :=
  match Client.execGit ["branch"; "--show-current"] w with
  | (Err e, w) => (Err e, w)
  | (Ok output, w) =>
      match rev (list_ascii_of_string output) with
      | c :: before =>
          if Ascii.eqb c "010"%char
          then (Ok (string_of_list_ascii (rev before)), w)
          else (Ok output, w)
      | [] => (Ok output, w)
      end
  end.

(** [Client.Status], of which [Client_Status] is the interface. *)
Definition Status (w : Client.Sys) : result GitStatus * Client.Sys :=
  match Client.execGit ["status"; "--porcelain"; "-u"] w with
  | (Err e, w) => (Err e, w)
  | (Ok output, w) =>
      let status := parseStatusOutput output in
      let '(branch, w) :=
        match CurrentBranch w with
        | (Ok b, w) => (b, w)
        | (Err _, w) => ("", w)
        end in
      (Ok {| Staged := Staged status;
             Unstaged := Unstaged status;
             Untracked := Untracked status;
             Branch := branch;
             IsClean := match Staged status, Unstaged status,
                              Untracked status with
                        | [], [], [] => true
                        | _, _, _ => false
                        end |}, w)
  end.

End Parser.
End Porcelain.

(** ** The selection map and the flags on the file entries *)

Module Selection.
Import Git App.

Section Selection.
Context `{W : Widgets}.

(** Every file entry's flag says what the map says of its position. *)
Definition synced (m : Model) : Prop :=
  forall (i : nat) f,
    files m !! i = Some f ->
    Selected f = isSelected (selectedFiles m) (Z.of_nat i).

End Selection.
End Selection.

(** ** Further sample states *)

Module Samples.
Import Git Keys App Sim.

(** The sample tree when [git] exits with status 128. *)
Definition tree128 : Tree :=
  {| snapshot := snapA; disk := [("a.txt", ["h"; "i"]%byte)];
     gitError := Some "exit status 128" |}.

(** The file list under an error overlay. *)
Definition m_error : Model := feed [errorMsg "boom"] m_listed.

(** The commit flow at its message step, nothing typed yet. *)
Definition m_message : Model :=
  feed [WindowSizeMsg 100 30; gitStatusMsg snapStaged; KeyMsg "c"] NewModel.

(** The amend-message input, opened before any HEAD info has arrived. *)
Definition m_amend : Model := feed [KeyMsg "m"; KeyMsg "m"] m_listed.

(** The world once the diff of [a.txt] has been fetched. *)
Definition w_cached : World := snd (fetchDiffCmd a_unstaged (worldOf treeA)).

(** [strings.TrimFunc] and [strings.TrimRightFunc] are not reached on
    ASCII text; the samples run the parser with the identity in their
    place. *)
Definition parse (output : string) : GitStatus :=
  Porcelain.parseStatusOutput (fun s => s) (fun s => s) output.

End Samples.

(** * Properties *)

(** ** Go integers *)

Lemma wrap_id z : GoInt.in_range z -> GoInt.wrap z = z.
Proof.
  unfold GoInt.in_range, GoInt.min_int, GoInt.max_int, GoInt.wrap. intros Hz.
  rewrite Z.mod_small; lia.
Qed.

Lemma wrap_in_range z : GoInt.in_range (GoInt.wrap z).
Proof.
  unfold GoInt.in_range, GoInt.min_int, GoInt.max_int, GoInt.wrap.
  pose proof (Z.mod_pos_bound (z + 2 ^ 63) (2 ^ 64) ltac:(lia)). lia.
Qed.

Lemma sub_exact a b :
  GoInt.min_int <= a - b <= GoInt.max_int -> GoInt.sub a b = a - b.
Proof. intros. unfold GoInt.sub. by apply wrap_id. Qed.

(** ** Layout engine *)

Section LayoutFacts.
Import Layout.

(** Below 100 columns the first band is taken, and neither clamp can
    bring the preview back. *)
Lemma narrow_preview_width width height :
  width < 100 -> PreviewWidth (NewLayout width height) = 0.
Proof.
  intros Hw. unfold NewLayout.
  destruct (Z.ltb_spec width 100); [|lia].
  destruct (GoInt.sub width 2 <? 30); reflexivity.
Qed.

Lemma narrow_list_width width height :
  width < 100 ->
  ListWidth (NewLayout width height) = Z.max 30 (GoInt.sub width 2).
Proof.
  intros Hw. unfold NewLayout.
  destruct (Z.ltb_spec width 100); [|lia].
  destruct (Z.ltb_spec (GoInt.sub width 2) 30); cbn; lia.
Qed.

Lemma content_height width height :
  GoInt.min_int + 5 <= height <= GoInt.max_int ->
  ContentHeight (NewLayout width height) = Z.max 5 (height - 5).
Proof.
  unfold GoInt.min_int, GoInt.max_int. intros Hh. unfold NewLayout.
  assert (GoInt.sub height 5 = height - 5) as ->.
  { unfold GoInt.sub, GoInt.wrap. rewrite Z.mod_small; lia. }
  destruct (Z.ltb_spec (height - 5) 5); repeat case_match; cbn; lia.
Qed.

(** C6, as stated, fails: at 20 columns the list is clamped to 30 columns,
    not 18. *)
Lemma c6_clamped_list_width : ~ Stated.narrow_layout.
Proof.
  intros Hc. destruct (Hc 20 24 ltac:(lia)) as [_ Hl].
  vm_compute in Hl. discriminate.
Qed.

(** C6 (amended): for every terminal width below 100 and any height the
    preview pane is disabled, and the list pane is [width - 2] columns wide
    unless that is less than 30, in which case it is 30 columns wide; so it
    is [width - 2] exactly from 32 columns on. *)
Theorem c6_narrow_layout width height :
  width < 100 ->
  HasPreviewPane (NewLayout width height) = false
  /\ ListWidth (NewLayout width height) = Z.max 30 (GoInt.sub width 2)
  /\ (GoInt.min_int + 2 <= width ->
      ListWidth (NewLayout width height) = Z.max 30 (width - 2))
  /\ (32 <= width -> ListWidth (NewLayout width height) = width - 2).
Proof.
  intros Hw. unfold HasPreviewPane.
  rewrite narrow_preview_width, narrow_list_width by done.
  split; [done|]. split; [done|].
  assert (Hs : GoInt.min_int + 2 <= width -> GoInt.sub width 2 = width - 2).
  { intros Hlo. apply sub_exact.
    unfold GoInt.min_int, GoInt.max_int in *. lia. }
  split; intros Hlo; rewrite Hs; unfold GoInt.min_int in *; lia.
Qed.

End LayoutFacts.

(** ** Binary detection *)

Section BinaryFacts.
Import Binary Stated.

Lemma byteZ_range b : 0 <= byteZ b < 256.
Proof. unfold byteZ. pose proof (Byte.to_N_bounded b). lia. Qed.

Lemma byteZ_zero b : byteZ b = 0 -> b = x00.
Proof.
  unfold byteZ. intros Hb.
  assert (Hn : Byte.to_N b = Byte.to_N x00) by (cbn; lia).
  apply (f_equal Byte.of_N) in Hn. rewrite !Byte.of_to_N in Hn. congruence.
Qed.

Lemma containsNul_spec data : containsNul data = true <-> In x00 data.
Proof.
  unfold containsNul. rewrite existsb_exists. split.
  - intros (b & Hin & Hb). apply Z.eqb_eq, byteZ_zero in Hb. by subst.
  - intros Hin. exists x00. done.
Qed.

Lemma isNonText_spec b : isNonText b = false <-> allowedByte b.
Proof.
  unfold isNonText, isCommonWhitespace, allowedByte. cbn [existsb].
  pose proof (byteZ_range b).
  destruct (Z.eqb_spec (byteZ b) 9), (Z.eqb_spec (byteZ b) 10),
    (Z.eqb_spec (byteZ b) 13), (Z.eqb_spec (byteZ b) 32),
    (Z.ltb_spec (byteZ b) 32), (Z.ltb_spec 126 (byteZ b)),
    (Z.ltb_spec (byteZ b) 128), (Z.ltb_spec 191 (byteZ b));
    cbn; split; intros; try done; try lia.
Qed.

Lemma sampleSize_bounds data :
  0 <= sampleSize data <= 8192
  /\ sampleSize data <= Z.of_nat (length data).
Proof.
  unfold sampleSize.
  destruct (Z.ltb_spec 8192 (Z.of_nat (length data))); lia.
Qed.

Lemma sampleSize_pos data : data <> [] -> 0 < sampleSize data.
Proof.
  intros Hne. unfold sampleSize.
  destruct data; [done|].
  destruct (Z.ltb_spec 8192 (Z.of_nat (length (b :: data)))); cbn in *; lia.
Qed.

Lemma nonTextCount_bounds data : 0 <= nonTextCount data <= sampleSize data.
Proof.
  unfold nonTextCount. pose proof (sampleSize_bounds data) as [Hs Hl].
  split; [lia|].
  etransitivity.
  - apply inj_le. apply length_filter.
  - rewrite length_take. lia.
Qed.

Lemma nonTextCount_allowed data :
  Forall allowedByte data -> nonTextCount data = 0.
Proof.
  intros Hall. unfold nonTextCount.
  assert (Hpre : Forall allowedByte (take (Z.to_nat (sampleSize data)) data))
    by by apply Forall_take.
  induction Hpre as [|b l Hb _ IH]; [done|].
  apply isNonText_spec in Hb.
  rewrite filter_cons_False by congruence. exact IH.
Qed.

(** The percentage the code compares with 30 is the integer quotient. *)
Lemma percent_exact data :
  0 < sampleSize data ->
  GoInt.div (GoInt.mul (nonTextCount data) 100) (sampleSize data)
  = nonTextCount data * 100 / sampleSize data.
Proof.
  intros Hpos. pose proof (sampleSize_bounds data) as [Hs _].
  pose proof (nonTextCount_bounds data) as Hn.
  unfold GoInt.div, GoInt.mul.
  rewrite (wrap_id (_ * 100))
    by (unfold GoInt.in_range, GoInt.min_int, GoInt.max_int; lia).
  rewrite Z.quot_div_nonneg by lia.
  apply wrap_id. unfold GoInt.in_range, GoInt.min_int, GoInt.max_int.
  assert (0 <= nonTextCount data * 100 / sampleSize data <= 100); [|lia].
  split; [apply Z.div_pos; lia|].
  apply Z.div_le_upper_bound; lia.
Qed.

(** What [isBinaryFile] computes: a NUL anywhere in the buffer, or a
    truncated percentage of non-text bytes in the sample above 30, which
    is to say at least 31%. *)
Lemma isBinaryFile_spec data :
  isBinaryFile data = true
  <-> In x00 data
      \/ (data <> [] /\ 31 * sampleSize data <= 100 * nonTextCount data).
Proof.
  unfold isBinaryFile. rewrite <- containsNul_spec.
  destruct (containsNul data); [by intuition|].
  destruct (decide (data = [])) as [->|Hne].
  { cbn. split; [done|]. intros [?|[? _]]; done. }
  pose proof (sampleSize_pos data Hne) as Hpos.
  pose proof (sampleSize_bounds data) as [Hs Hl].
  destruct (Z.ltb_spec 0 (Z.of_nat (length data))); [|lia].
  destruct (Z.ltb_spec 0 (sampleSize data)); [|lia].
  rewrite percent_exact by done. cbn [andb].
  destruct (Z.ltb_spec 30 (nonTextCount data * 100 / sampleSize data))
    as [Hq|Hq].
  - split; [|done]. intros _. right. split; [done|].
    pose proof (Z.mul_div_le (nonTextCount data * 100) (sampleSize data) Hpos).
    nia.
  - split; [done|]. intros [?|[_ Hge]]; [done|]. exfalso.
    assert (31 <= nonTextCount data * 100 / sampleSize data); [|lia].
    apply Z.div_le_lower_bound; lia.
Qed.

(** The three sample classifications of the specification hold. *)
Lemma nul_byte_is_binary data : In x00 data -> isBinaryFile data = true.
Proof. intros Hin. apply isBinaryFile_spec. by left. Qed.

Lemma allowed_bytes_are_text data :
  Forall allowedByte data -> isBinaryFile data = false.
Proof.
  intros Hall. destruct (isBinaryFile data) eqn:Hb; [|done].
  apply isBinaryFile_spec in Hb as [Hin|[Hne Hge]].
  - rewrite Forall_forall in Hall. apply list_elem_of_In, Hall in Hin.
    unfold allowedByte in Hin. cbn in Hin. lia.
  - rewrite nonTextCount_allowed in Hge by done.
    pose proof (sampleSize_pos data Hne). lia.
Qed.

Lemma thirty_five_percent_is_binary data :
  data <> [] -> 35 * sampleSize data <= 100 * nonTextCount data ->
  isBinaryFile data = true.
Proof.
  intros Hne Hge. apply isBinaryFile_spec. right. split; [done|].
  pose proof (sampleSize_bounds data). lia.
Qed.

(** C7: the code departs from the stated rule (and from its own comments)
    at two inputs.  [buf13] has no NUL and 4 non-text bytes out of 13,
    which is more than 30%, yet it is classified as text, because the
    percentage is truncated to 30 before the comparison.  [bufLateNul] has
    its only NUL after the first 8 KiB, whose bytes are all text, yet it is
    classified as binary, because the NUL search covers the whole
    buffer. *)
Theorem c7_isBinaryFile_failing_inputs :
  (isBinaryFile Sim.buf13 = false
   /\ containsNul Sim.buf13 = false
   /\ sampleSize Sim.buf13 = 13 /\ nonTextCount Sim.buf13 = 4
   /\ 30 * 13 < 100 * 4)
  /\ (isBinaryFile Sim.bufLateNul = true
      /\ sampleSize Sim.bufLateNul = 8192
      /\ containsNul (take (Z.to_nat 8192) Sim.bufLateNul) = false
      /\ nonTextCount Sim.bufLateNul = 0).
Proof. vm_compute. repeat split; intros; discriminate. Qed.

End BinaryFacts.

(** ** The update loop *)

Import Git Keys App Stated.

Section UpdateFacts.
Context `{W : Widgets} `{B : Backend}.

(** *** Selection *)

(** C10: for an index outside [0, len(files)), [toggleSelection] returns
    the model it was given: the selection map, the file entries and their
    flags, and the list widget's items are all untouched. *)
Theorem c10_toggle_out_of_range (m : Model) (index : Z) :
  index < 0 \/ len (files m) <= index ->
  toggleSelection index m = m
  /\ selectedFiles (toggleSelection index m) = selectedFiles m
  /\ files (toggleSelection index m) = files m
  /\ list_ (toggleSelection index m) = list_ m.
Proof.
  intros Hout. unfold toggleSelection.
  destruct (Z.ltb_spec index 0), (Z.leb_spec (len (files m)) index);
    cbn; try done; lia.
Qed.

(** In range, the entry is flipped in the map and mirrored on the file. *)
Lemma toggle_in_range (m : Model) (index : Z) :
  0 <= index < len (files m) ->
  isSelected (selectedFiles (toggleSelection index m)) index
  = negb (isSelected (selectedFiles m) index)
  /\ Selected <$> files (toggleSelection index m) !! Z.to_nat index
     = Some (negb (isSelected (selectedFiles m) index)).
Proof.
  intros Hin. unfold toggleSelection.
  destruct (Z.ltb_spec index 0), (Z.leb_spec (len (files m)) index);
    try lia.
  unfold len in *. cbn. unfold isSelected at 1. rewrite lookup_insert_eq. split; [done|].
  rewrite list_lookup_alter_eq.
  destruct (lookup_lt_is_Some_2 (files m) (Z.to_nat index) ltac:(lia))
    as [f ->].
  reflexivity.
Qed.

Lemma deselectAll_clears (m : Model) :
  selectedFiles (deselectAll m) = ∅
  /\ Forall (fun f => Selected f = false) (files (deselectAll m)).
Proof.
  split; [reflexivity|]. cbn.
  induction (files m); constructor; done.
Qed.

(** No message other than a key press or a stage/unstage result touches
    the selection map. *)
Lemma Update_keeps_selectedFiles msg (m : Model) :
  keepsSelection msg = true ->
  selectedFiles (fst (Update msg m)) = selectedFiles m.
Proof.
  destruct msg; try discriminate; intros _; unfold Update, updateWidgets;
    repeat case_match; reflexivity.
Qed.

Lemma toggleSelectionCmd_keepsSelection fs w :
  keepsSelection (fst (toggleSelectionCmd fs w)) = true.
Proof. unfold toggleSelectionCmd. repeat case_match; reflexivity. Qed.

Lemma refreshStatusCmd_keepsSelection w :
  keepsSelection (fst (refreshStatusCmd w)) = true.
Proof. unfold refreshStatusCmd. repeat case_match; reflexivity. Qed.

(** Whatever the apply command answers, applying its answer leaves the
    selection map as it was. *)
Lemma apply_result_keeps_selection fs w (m : Model) :
  selectedFiles (fst (Update (fst (toggleSelectionCmd fs w)) m))
  = selectedFiles m.
Proof. apply Update_keeps_selectedFiles, toggleSelectionCmd_keepsSelection. Qed.

(** *** Diff results *)

(** C1 (amended): a diff result is applied whatever file it was requested
    for: the preview text becomes the result's content (or the error
    text), the viewport is given that text, no command follows, nothing
    else changes, and the requested path plays no part. *)
Theorem c1_diff_result_always_applied (m : Model) file content e :
  Update (gitDiffMsg file content e) m
  = (set_viewport (viewport_SetContent (diffText content e) (viewport m))
       (set_previewContent (diffText content e) m), CmdNil)
  /\ previewContent (fst (Update (gitDiffMsg file content e) m))
     = diffText content e
  /\ forall file', Update (gitDiffMsg file' content e) m
                   = Update (gitDiffMsg file content e) m.
Proof. destruct e; repeat split. Qed.

(** *** Commit intent and commit results *)

(** C9: in the file list with nothing staged (and no error overlay up),
    the commit key only sets the status "No files staged": the state and
    the commit sub-state stay as they are, and the command returned is the
    two-second tick whose message clears the status again. *)
Theorem c9_commit_without_staged (m : Model) :
  err m = "" -> state m = StateFileList -> keys m = DefaultKeyMap ->
  StagedCount (gitStatus m) = 0 ->
  let m' := fst (Update (KeyMsg "c") m) in
  Update (KeyMsg "c") m = (set_status "No files staged" m, clearStatus)
  /\ state m' = StateFileList
  /\ status m' = "No files staged"
  /\ (commitState m' = commitState m /\ commitMessage m' = commitMessage m
      /\ commitDate m' = commitDate m /\ commitTextarea m' = commitTextarea m
      /\ commitInput m' = commitInput m)
  /\ (forall w, runCmd clearStatus w = Some (statusMsg "", w))
  /\ status (fst (Update (statusMsg "") m')) = "".
Proof.
  intros He Hs Hk Hn.
  assert (Hu : Update (KeyMsg "c") m
               = (set_status "No files staged" m, clearStatus)).
  { unfold Update. rewrite He. cbn. unfold handleKeyMsg. rewrite Hs.
    unfold handleFileListKeys. rewrite Hk. cbn. by rewrite Hn. }
  cbv zeta. rewrite Hu. cbn. by rewrite Hs.
Qed.

(** With something staged the same key opens the commit message input. *)
Lemma commit_with_staged (m : Model) :
  err m = "" -> state m = StateFileList -> keys m = DefaultKeyMap ->
  StagedCount (gitStatus m) <> 0 ->
  Update (KeyMsg "c") m = (enterCommitMode m, CmdNil).
Proof.
  intros He Hs Hk Hn. unfold Update. rewrite He. cbn.
  unfold handleKeyMsg. rewrite Hs. unfold handleFileListKeys. rewrite Hk.
  cbn. by destruct (Z.eqb_spec (StagedCount (gitStatus m)) 0).
Qed.

(** [commitCmd] reports success with no error, and failure with one. *)
Lemma commitCmd_outcome message date w :
  fst (commitCmd message date w)
  = gitCommitMsg true None "[OK] Commit created successfully"
  \/ exists e, fst (commitCmd message date w) = gitCommitMsg false (Some e) "".
Proof.
  unfold commitCmd.
  destruct (if String.eqb date "" then _ else _); [|right; by eexists].
  destruct (Client.Commit _ _ _) as [[e|] s]; [right; by eexists|by left].
Qed.

(** C5: a commit result arriving at the date step.  Without an error the
    state becomes the file list, the draft message and date are emptied
    and a status refresh is dispatched; with an error the overlay text is
    set and the state, the step and the draft are as before. *)
Theorem c5_commit_result (m : Model) success message :
  state m = StateCommitMessage -> commitState m = CommitStateDate ->
  (let '(m', cmd) := Update (gitCommitMsg success None message) m in
   state m' = StateFileList /\ commitMessage m' = "" /\ commitDate m' = ""
   /\ status m' = message
   /\ cmd = CmdBatch [CmdRefreshStatus; clearStatus])
  /\ (forall e,
      let '(m', cmd) := Update (gitCommitMsg success (Some e) message) m in
      m' = set_err ("Commit failed: " +:+ e) m
      /\ err m' <> ""
      /\ state m' = StateCommitMessage /\ commitState m' = CommitStateDate
      /\ commitMessage m' = commitMessage m /\ commitDate m' = commitDate m
      /\ commitTextarea m' = commitTextarea m
      /\ commitInput m' = commitInput m
      /\ cmd = clearError).
Proof.
  intros Hs Hc. split; [by cbn|].
  intros e. cbn. by rewrite Hs, Hc.
Qed.

(** *** Modifying HEAD *)

Lemma softResetHeadCmd_outcome w :
  fst (softResetHeadCmd w)
  = match fst (Client.SoftResetHead (sys w)) with
    | Some e => gitAmendMsg false (Some e) ""
    | None => gitAmendMsg true None
                "[OK] HEAD soft reset successfully. Changes staged."
    end.
Proof.
  unfold softResetHeadCmd. by destruct (Client.SoftResetHead _) as [[e|] s].
Qed.

(** C4 (amended): from the HEAD menu the amend-files key dispatches the
    soft reset.  When the reset succeeds, applying its result leads to the
    file list with the success status; when it fails, the state stays the
    HEAD menu and the failure is put in the error overlay. *)
Theorem c4_soft_reset_outcome (m : Model) (w : World) :
  err m = "" -> state m = StateModifyHead ->
  headModifyState m = HeadModifyStateMenu ->
  Update (KeyMsg "f") m = (set_processing true m, CmdSoftResetHead)
  /\ exists msg w',
       runCmd CmdSoftResetHead w = Some (msg, w')
       /\ let m' := fst (Update msg (set_processing true m)) in
          match fst (Client.SoftResetHead (sys w)) with
          | None =>
              state m' = StateFileList
              /\ status m'
                 = "[OK] HEAD soft reset successfully. Changes staged."
              /\ err m' = ""
          | Some e =>
              state m' = StateModifyHead
              /\ headModifyState m' = HeadModifyStateMenu
              /\ err m' = "Amendment failed: " +:+ e
          end.
Proof.
  intros He Hs Hh. split.
  - unfold Update. rewrite He. cbn. unfold handleKeyMsg. rewrite Hs.
    unfold handleModifyHeadKeys. by rewrite Hh.
  - exists (fst (softResetHeadCmd w)), (snd (softResetHeadCmd w)). split.
    + cbn. by destruct (softResetHeadCmd w).
    + rewrite softResetHeadCmd_outcome.
      destruct (fst (Client.SoftResetHead (sys w))); cbn;
        by rewrite ?He, ?Hs, ?Hh.
Qed.

(** *** The processing flag *)

Ltac unfold_handlers :=
  unfold Update, handleKeyMsg, handleFileListKeys, handleCommitKeys,
    handleCommitMessageKeys, handleCommitDateKeys, handleHelpKeys,
    handleModifyHeadKeys, handleHeadMenuKeys, handleHeadAmendMessageKeys,
    handleHeadAmendFilesKeys, navigateList, previewScrolls, applySelection,
    getSelectedFiles, getCurrentFile, toggleSelection, selectAll,
    deselectAll, rebuildItems, enterCommitMode, proceedToDateInput,
    cancelCommit, enterModifyHeadMode, enterAmendMessageMode,
    cancelModifyHead.

(** Key handling never reads [processing]: models that differ in it alone
    yield the same command and models that differ in it alone. *)
Lemma keys_ignore_processing (m1 m2 : Model) key :
  sameButProcessing m1 m2 ->
  sameButProcessing (fst (Update (KeyMsg key) m1))
                    (fst (Update (KeyMsg key) m2))
  /\ snd (Update (KeyMsg key) m1) = snd (Update (KeyMsg key) m2).
Proof.
  unfold sameButProcessing. destruct m1, m2. cbn. intros Heq.
  simplify_eq.
  unfold_handlers; cbn.
  repeat case_match; cbn; split; reflexivity.
Qed.

(** Outside key presses and stage/unstage results, [Update] carries the
    flag along. *)
Lemma Update_keeps_processing msg (m : Model) :
  keepsSelection msg = true ->
  processing (fst (Update msg m)) = processing m.
Proof.
  destruct msg; try discriminate; intros _; unfold Update, updateWidgets;
    repeat case_match; reflexivity.
Qed.

(** No key press lowers the flag. *)
Lemma keys_keep_processing_raised key (m : Model) :
  processing m = true -> processing (fst (Update (KeyMsg key) m)) = true.
Proof.
  destruct m. cbn. intros ->.
  unfold_handlers; cbn.
  repeat case_match; reflexivity.
Qed.

(** Once raised, the flag stays raised under every message but the result
    of [stageFilesCmd] or [unstageFilesCmd]. *)
Lemma processing_stays_raised msg (m : Model) :
  (forall fs e, msg <> gitStageMsg fs e) ->
  (forall fs e, msg <> gitUnstageMsg fs e) ->
  processing m = true -> processing (fst (Update msg m)) = true.
Proof.
  intros Hst Hun Hp.
  destruct msg as [key| | | | | |fs e|fs e| | | | | |];
    try (rewrite Update_keeps_processing; [exact Hp|reflexivity]).
  - by apply keys_keep_processing_raised.
  - by destruct (Hst fs e).
  - by destruct (Hun fs e).
Qed.

(** Where the code assigns [processing]: the modify-HEAD key, the
    amend-files key of the HEAD menu and the confirmation of a non-empty
    amended message set it; the [gitStageMsg] and [gitUnstageMsg] cases of
    [Update] clear it; and key handling never reads it. *)
Lemma processing_flag_assignments (m : Model) :
  err m = "" ->
  (state m = StateFileList -> keys m = DefaultKeyMap ->
   Update (KeyMsg "m") m
   = (set_processing true (enterModifyHeadMode m), CmdFetchHeadInfo))
  /\ (state m = StateModifyHead ->
      headModifyState m = HeadModifyStateMenu ->
      Update (KeyMsg "f") m = (set_processing true m, CmdSoftResetHead))
  /\ (state m = StateModifyHead ->
      headModifyState m = HeadModifyStateAmendMessage ->
      textarea_Value (headMessageTextarea m) <> "" ->
      processing (fst (Update (KeyMsg "ctrl+d") m)) = true
      /\ snd (Update (KeyMsg "ctrl+d") m)
         = CmdAmendMessage (textarea_Value (headMessageTextarea m)))
  /\ (forall (m0 : Model) fs e,
        processing (fst (Update (gitStageMsg fs e) m0)) = false
        /\ processing (fst (Update (gitUnstageMsg fs e) m0)) = false)
  /\ (forall (m1 m2 : Model) key,
        sameButProcessing m1 m2 ->
        sameButProcessing (fst (Update (KeyMsg key) m1))
                          (fst (Update (KeyMsg key) m2))
        /\ snd (Update (KeyMsg key) m1) = snd (Update (KeyMsg key) m2)).
Proof.
  intros He. repeat apply conj.
  - intros Hs Hk. unfold Update. rewrite He. cbn. unfold handleKeyMsg.
    rewrite Hs. unfold handleFileListKeys. by rewrite Hk.
  - intros Hs Hh. unfold Update. rewrite He. cbn. unfold handleKeyMsg.
    rewrite Hs. unfold handleModifyHeadKeys. by rewrite Hh.
  - intros Hs Hh Hv. unfold Update. rewrite He. cbn. unfold handleKeyMsg.
    rewrite Hs. unfold handleModifyHeadKeys. rewrite Hh.
    unfold handleHeadAmendMessageKeys. cbn.
    by destruct (String.eqb_spec (textarea_Value (headMessageTextarea m)) "").
  - intros m0 fs [e|]; by cbn.
  - intros m1 m2 key. apply keys_ignore_processing.
Qed.

End UpdateFacts.

(** ** The diff cache *)

Section CacheFacts.
Context `{B : Backend}.

Lemma execGit_calls args s :
  Client.gitCalls (snd (Client.execGit args s)) = Client.gitCalls s ++ [args].
Proof.
  unfold Client.execGit.
  destruct (run_git args _) as [[output [e|]] r]; reflexivity.
Qed.

(** [Client.Diff] makes one diff call, whether or not it succeeds. *)
Lemma Diff_calls path staged s :
  diffCalls (snd (Client.Diff path staged s)) = S (diffCalls s).
Proof.
  unfold Client.Diff.
  set (args := _ ++ _ ++ _).
  pose proof (execGit_calls args s) as Hc.
  assert (Hd : isDiffCall args = true) by reflexivity.
  assert (Hn : diffCalls (snd (Client.execGit args s)) = S (diffCalls s)).
  { unfold diffCalls. rewrite Hc, List.filter_app, length_app.
    cbn [List.filter]. rewrite Hd. cbn. lia. }
  destruct (Client.execGit args s) as [[output|e] s']; [done|].
  by destruct (Contains e _).
Qed.

Lemma ReadFile_calls path s :
  Client.gitCalls (snd (Client.ReadFile path s)) = Client.gitCalls s.
Proof. unfold Client.ReadFile. by destruct (os_ReadFile _ _). Qed.

Lemma ReadFile_diffCalls path s :
  diffCalls (snd (Client.ReadFile path s)) = diffCalls s.
Proof. unfold diffCalls. by rewrite ReadFile_calls. Qed.

(** A cache hit answers from the map and leaves the world as it is. *)
Lemma fetchDiffCmd_hit file w text :
  diffCache w !! Path file = Some text ->
  fetchDiffCmd file w = (gitDiffMsg (Path file) text None, w).
Proof. intros Hc. unfold fetchDiffCmd. by rewrite Hc. Qed.

Lemma fetchByStatus_tracked file s :
  Status file <> StatusUntracked ->
  fetchByStatus file s
  = (inr (fst (Client.Diff (Path file) (isStaged file) s)),
     snd (Client.Diff (Path file) (isStaged file) s)).
Proof.
  intros Hst. unfold fetchByStatus, isStaged.
  destruct (Status file); cbn; [by destruct (Client.Diff _ _ _)..|done].
Qed.

(** C8 (amended): for a staged or unstaged file that is not yet cached and
    whose backend diff call succeeds, the first request makes exactly one
    backend diff call and caches its text; every later request for that
    path, as long as the entry is in the cache, returns the same message
    and leaves the world as it is, so it makes no backend call. *)
Theorem c8_successful_fetch_is_cached
    (file : FileItem) (w : World) content s :
  Status file <> StatusUntracked ->
  diffCache w !! Path file = None ->
  Client.Diff (Path file) (isStaged file) (sys w) = (Ok content, s) ->
  exists text,
    let w1 := snd (fetchDiffCmd file w) in
    fst (fetchDiffCmd file w) = gitDiffMsg (Path file) text None
    /\ diffCalls (sys w1) = S (diffCalls (sys w))
    /\ diffCache w1 !! Path file = Some text
    /\ fetchDiffCmd file w1 = (gitDiffMsg (Path file) text None, w1)
    /\ forall file' w',
         Path file' = Path file ->
         diffCache w' !! Path file = Some text ->
         fetchDiffCmd file' w' = (gitDiffMsg (Path file) text None, w').
Proof.
  intros Hst Hmiss Hdiff.
  pose proof (Diff_calls (Path file) (isStaged file) (sys w)) as Hn.
  pose proof (fetchByStatus_tracked file (sys w) Hst) as Hstep.
  rewrite Hdiff in Hn, Hstep. cbn in Hn, Hstep.
  assert (Hhit : forall text file' w',
             Path file' = Path file -> diffCache w' !! Path file = Some text ->
             fetchDiffCmd file' w' = (gitDiffMsg (Path file) text None, w')).
  { intros text file' w' Hp Hc. rewrite <- Hp in *. by apply fetchDiffCmd_hit. }
  unfold fetchDiffCmd at 1 2. rewrite Hmiss, Hstep.
  destruct (String.eqb content "" && _).
  - pose proof (ReadFile_diffCalls (Path file) s) as Hr.
    destruct (Client.ReadFile (Path file) s) as [[bytes|readErr] s'];
      cbn in Hr; eexists; cbn;
      (split; [reflexivity|]); (split; [lia|]);
      (split; [apply lookup_insert_eq|]);
      (split; [|by apply Hhit]);
      apply fetchDiffCmd_hit; cbn; apply lookup_insert_eq.
  - eexists; cbn.
    (split; [reflexivity|]); (split; [lia|]);
      (split; [apply lookup_insert_eq|]);
      (split; [|by apply Hhit]).
    apply fetchDiffCmd_hit; cbn; apply lookup_insert_eq.
Qed.

(** A failed diff is not cached: the cache is as before, and the same
    request will call the backend again. *)
Lemma failed_diff_not_cached (file : FileItem) (w : World) e s :
  Status file <> StatusUntracked ->
  diffCache w !! Path file = None ->
  Client.Diff (Path file) (isStaged file) (sys w) = (Err e, s) ->
  fetchDiffCmd file w
  = (gitDiffMsg (Path file) ("Error loading diff: " +:+ e) None, set_sys s w).
Proof.
  intros Hst Hmiss Hdiff.
  pose proof (fetchByStatus_tracked file (sys w) Hst) as Hstep.
  rewrite Hdiff in Hstep. unfold fetchDiffCmd. by rewrite Hmiss, Hstep.
Qed.

(** An untracked file is read from disk: no diff call is made. *)
Lemma untracked_fetch_makes_no_diff_call (file : FileItem) (w : World) :
  Status file = StatusUntracked ->
  diffCalls (sys (snd (fetchDiffCmd file w))) = diffCalls (sys w).
Proof.
  intros Hst. unfold fetchDiffCmd, fetchByStatus. rewrite Hst.
  destruct (diffCache w !! Path file); [done|].
  pose proof (ReadFile_diffCalls (Path file) (sys w)) as Hr.
  destruct (Client.ReadFile (Path file) (sys w)) as [[bytes|readErr] s'];
    cbn in *; [|done].
  by destruct (String.eqb _ _).
Qed.

End CacheFacts.

(** ** Runs on the sample working tree *)

Import Sim.

(** C6 at a common terminal size, 80 by 24. *)
Lemma c6_narrow_layout_at_80 :
  80 < 100
  /\ Layout.HasPreviewPane (Layout.NewLayout 80 24) = false
  /\ Layout.ListWidth (Layout.NewLayout 80 24) = 78.
Proof.
  assert (Hw : 80 < 100) by lia.
  destruct (c6_narrow_layout 80 24 Hw) as (Hp & _ & _ & Hl).
  split; [exact Hw|]. split; [exact Hp|]. apply Hl. lia.
Defined.

(** C10 on the one-file list, toggling position 5. *)
Lemma c10_toggle_at_5 :
  (5 < 0 \/ len (files m_listed) <= 5)
  /\ toggleSelection 5 m_listed = m_listed.
Proof.
  assert (Hout : 5 < 0 \/ len (files m_listed) <= 5)
    by (right; vm_compute; discriminate).
  split; [exact Hout|].
  exact (proj1 (c10_toggle_out_of_range m_listed 5 Hout)).
Defined.

(** C9 on the one-file list, where nothing is staged. *)
Lemma c9_commit_key_on_unstaged_tree :
  status (fst (Update (KeyMsg "c") m_listed)) = "No files staged"
  /\ state (fst (Update (KeyMsg "c") m_listed)) = StateFileList.
Proof.
  destruct (c9_commit_without_staged m_listed eq_refl eq_refl eq_refl eq_refl)
    as (_ & Hstate & Hstatus & _).
  split; [exact Hstatus|exact Hstate].
Defined.

(** C5 at the date step of the sample commit flow. *)
Lemma c5_commit_result_at_date_step :
  state (fst (Update (gitCommitMsg true None "[OK] Commit created successfully")
                     m_date)) = StateFileList
  /\ state (fst (Update (gitCommitMsg false (Some "signal: killed") "")
                        m_date)) = StateCommitMessage.
Proof.
  split.
  - pose proof (proj1 (c5_commit_result m_date true
      "[OK] Commit created successfully" eq_refl eq_refl)) as Hok.
    exact (proj1 Hok).
  - pose proof (proj2 (c5_commit_result m_date false "" eq_refl eq_refl)
                  "signal: killed") as Hko.
    exact (proj1 (proj2 (proj2 Hko))).
Defined.

(** C1, as stated, fails: with the cursor on [b.txt], a diff result for
    [a.txt] still replaces the preview. *)
Lemma c1_stale_diff_is_applied : ~ stale_diff_discarded.
Proof.
  intros Hc.
  assert (Hcur : Path <$> getCurrentFile m_on_b <> Some "a.txt")
    by (vm_compute; discriminate).
  specialize (Hc m_on_b "a.txt" "stale" None Hcur).
  apply (f_equal (fun r => previewContent (fst r))) in Hc.
  vm_compute in Hc. discriminate.
Qed.

(** C4, as stated, fails: when the reset fails, the state is still the
    HEAD menu after its result has been applied. *)
Lemma c4_failed_reset_stays_in_menu : ~ soft_reset_always_returns.
Proof.
  intros Hc.
  destruct (Hc m_menu (worldOf brokenTree)
              (fst (softResetHeadCmd (worldOf brokenTree)))
              (snd (softResetHeadCmd (worldOf brokenTree)))
              eq_refl eq_refl eq_refl) as [_ Hstate].
  specialize (Hstate eq_refl). vm_compute in Hstate. discriminate.
Qed.

(** C4 (amended) on the sample tree, where the reset succeeds. *)
Lemma c4_soft_reset_on_sample_tree :
  Update (KeyMsg "f") m_menu = (set_processing true m_menu, CmdSoftResetHead).
Proof.
  exact (proj1 (c4_soft_reset_outcome m_menu (worldOf treeA)
                  eq_refl eq_refl eq_refl)).
Defined.

(** C3: the run at which the code departs from the stated rule.  On the
    one-file list the flag is down; the modify-HEAD key raises it and
    dispatches the HEAD-info fetch, which succeeds on the sample tree.
    Applying the fetch's result only stores the commit's description: the
    flag is still raised in the HEAD menu, where the rule has it lowered.
    The soft reset dispatched from that menu fares alike: once its result
    and the status refresh that follows have been applied, the program is
    back in the file list with the flag still raised. *)
Theorem c3_processing_stays_set :
  processing m_listed = false
  /\ Update (KeyMsg "m") m_listed = (m_menu, CmdFetchHeadInfo)
  /\ processing m_menu = true
  /\ runCmd CmdFetchHeadInfo (worldOf treeA)
     = Some (gitHeadInfoMsg (Some headOfTree), worldOf treeA)
  /\ Update (gitHeadInfoMsg (Some headOfTree)) m_menu
     = (set_headInfo (Some headOfTree) m_menu, CmdNil)
  /\ processing (set_headInfo (Some headOfTree) m_menu) = true
  /\ state (set_headInfo (Some headOfTree) m_menu) = StateModifyHead
  /\ snd (Update (KeyMsg "f") (set_headInfo (Some headOfTree) m_menu))
     = CmdSoftResetHead
  /\ fst (softResetHeadCmd (worldOf treeA))
     = gitAmendMsg true None
         "[OK] HEAD soft reset successfully. Changes staged."
  /\ state (feed [KeyMsg "f"; fst (softResetHeadCmd (worldOf treeA));
                  fst (refreshStatusCmd (snd (softResetHeadCmd (worldOf treeA))))]
                 (set_headInfo (Some headOfTree) m_menu))
     = StateFileList
  /\ processing (feed [KeyMsg "f"; fst (softResetHeadCmd (worldOf treeA));
                       fst (refreshStatusCmd
                              (snd (softResetHeadCmd (worldOf treeA))))]
                      (set_headInfo (Some headOfTree) m_menu))
     = true.
Proof. vm_compute. repeat split. Qed.

(** The rule read as a statement about every dispatch does not hold
    either: the HEAD-info result is a dispatch's result and leaves the
    flag raised. *)
Lemma head_info_leaves_processing : ~ processing_brackets_dispatch.
Proof.
  intros Hc.
  destruct (Hc m_listed "m" (worldOf treeA)
              (gitHeadInfoMsg (Some headOfTree)) (worldOf treeA)
              eq_refl eq_refl) as [_ Hoff].
  vm_compute in Hoff. discriminate.
Qed.

(** The commit is dispatched with the flag down. *)
Lemma commit_dispatch_leaves_processing :
  snd (Update (KeyMsg "enter") m_date) = CmdCommit "fix" ""
  /\ processing (fst (Update (KeyMsg "enter") m_date)) = false.
Proof. split; reflexivity. Qed.

(** [processing_flag_assignments] on the one-file list: the modify-HEAD
    key raises the flag. *)
Lemma processing_flag_on_sample :
  err m_listed = ""
  /\ processing (fst (Update (KeyMsg "m") m_listed)) = true.
Proof.
  split; [reflexivity|].
  pose proof (proj1 (processing_flag_assignments m_listed eq_refl)
                eq_refl eq_refl) as Hm.
  rewrite Hm. reflexivity.
Defined.

(** C8, as stated, fails: when the backend call fails nothing is cached
    and the second request calls the backend again. *)
Lemma c8_failed_diff_is_repeated : ~ two_fetches_one_call.
Proof.
  intros Hc.
  destruct (Hc a_unstaged (worldOf brokenTree) eq_refl) as [Hn _].
  vm_compute in Hn. discriminate.
Qed.

(** C8 (amended) on the sample tree. *)
Lemma c8_fetch_twice_on_sample_tree :
  exists text,
    let w1 := snd (fetchDiffCmd a_unstaged (worldOf treeA)) in
    fst (fetchDiffCmd a_unstaged (worldOf treeA))
    = gitDiffMsg "a.txt" text None
    /\ diffCalls (sys w1) = 1%nat
    /\ diffCache w1 !! "a.txt" = Some text
    /\ fetchDiffCmd a_unstaged w1 = (gitDiffMsg "a.txt" text None, w1).
Proof.
  destruct (c8_successful_fetch_is_cached a_unstaged (worldOf treeA)
              "diff --git a.txt"
              (snd (Client.Diff "a.txt" false (sys (worldOf treeA))))
              ltac:(discriminate) eq_refl eq_refl)
    as (text & Hmsg & Hcalls & Hcache & Hagain & _).
  exists text. repeat split; assumption.
Defined.

(** C2: the run of the specification's example.  Marking [a.txt] and
    pressing the apply key dispatches the toggle command on [a.txt]; on
    the sample tree that command issues [git add -- a.txt], succeeds and
    answers with a plain status message, and the refresh reports [a.txt]
    staged.  Once all of this has been applied, position 0 is still marked
    in the selection map, so the selection is not empty: it now designates
    the staged [a.txt]. *)
Theorem c2_selection_survives_apply :
  snd (Update (KeyMsg "enter") m_marked)
  = CmdBatch [CmdToggleSelection [a_marked]; CmdMsg gitRefreshMsg]
  /\ fst (toggleSelectionCmd [a_marked] (worldOf treeA))
     = statusMsg "Staged 1 file(s)"
  /\ Client.gitCalls (sys (snd (toggleSelectionCmd [a_marked] (worldOf treeA))))
     = [["add"; "--"; "a.txt"]]
  /\ snd (Update gitRefreshMsg m_marked) = CmdRefreshStatus
  /\ fst (refreshStatusCmd (snd (toggleSelectionCmd [a_marked] (worldOf treeA))))
     = gitStatusMsg snapStaged
  /\ selectedFiles m_applied !! 0 = Some true
  /\ getSelectedFiles m_applied = [NewFileItem "a.txt" StatusStaged].
Proof. vm_compute. repeat split. Qed.

(** ** The porcelain status parser *)

Section PorcelainFacts.
Import GoStrings Porcelain.
Variable tf : string -> string.
Variable tr : string -> string.


Lemma append_cons c s t : String c s +:+ t = String c (s +:+ t).
Proof. reflexivity. Qed.

Lemma plain_not_newline c : plain c = true -> Ascii.eqb c "010" = false.
Proof.
  unfold plain, isAsciiSpace. cbn [existsb]. intros Hp.
  destruct (Ascii.eqb_spec c "010"); [|done].
  subst. by cbn in Hp.
Qed.

Lemma list_ascii_app s t :
  list_ascii_of_string (s +:+ t)
  = list_ascii_of_string s ++ list_ascii_of_string t.
Proof.
  induction s as [|c s IH]; [done|].
  rewrite append_cons. cbn. by rewrite IH.
Qed.

(** [TrimSpace] leaves alone a string that starts and ends with plain
    bytes. *)
Lemma TrimSpace_plain_ends c body d :
  plain c = true -> plain d = true ->
  TrimSpace tf tr (String c (body +:+ String d ""))
  = String c (body +:+ String d "").
Proof.
  unfold plain. intros [Hc1 Hc2]%andb_prop [Hd1 Hd2]%andb_prop.
  apply negb_true_iff in Hc2, Hd2.
  cbn [GoStrings.TrimSpace]. rewrite Hc1, Hc2. cbn [negb].
  unfold trimRightSpace.
  rewrite <- append_cons, list_ascii_app. cbn [list_ascii_of_string].
  rewrite (rev_app_distr _ [d]). cbn [rev app scanRight].
  rewrite Hd1, Hd2. cbn [negb rev].
  rewrite rev_app_distr, rev_involutive. cbn [rev app].
  rewrite <- (string_of_list_ascii_of_string (String c body +:+ String d "")).
  by rewrite list_ascii_app.
Qed.

Lemma SplitLines_single s : noNewline s -> SplitLines s = [s].
Proof.
  unfold noNewline. induction s as [|c s IH]; cbn; [done|].
  intros Hall. inversion Hall as [|? ? Hc Hs]; subst.
  rewrite Hc, IH by done. done.
Qed.

Lemma noNewline_app s t : noNewline s -> noNewline t -> noNewline (s +:+ t).
Proof. unfold noNewline. rewrite list_ascii_app. apply Forall_app_2. Qed.

(** One line that begins and ends with plain bytes is parsed as it
    stands. *)
Lemma parse_single_line x y z body d :
  plain x = true -> plain d = true ->
  Ascii.eqb y "010" = false -> Ascii.eqb z "010" = false -> noNewline body ->
  parseStatusOutput tf tr
    (String x (String y (String z (body +:+ String d ""))))
  = parseLine zeroStatus
      (String x (String y (String z (body +:+ String d "")))).
Proof.
  intros Hx Hd Hy Hz Hb. unfold Porcelain.parseStatusOutput.
  rewrite <- !(append_cons _ _ (String d "")), (append_cons x).
  rewrite TrimSpace_plain_ends by done.
  rewrite <- (append_cons x).
  rewrite SplitLines_single; [done|].
  apply noNewline_app.
  - repeat (constructor; [done || by apply plain_not_newline|]). exact Hb.
  - constructor; [by apply plain_not_newline|constructor].
Qed.

Lemma length_append s t :
  String.length (s +:+ t) = (String.length s + String.length t)%nat.
Proof.
  induction s as [|c s IH]; [done|].
  rewrite append_cons. cbn [String.length]. by rewrite IH.
Qed.

Lemma length_ge_4 x y z body d :
  (Z.of_nat (String.length
               (String x (String y (String z (body +:+ String d "")))))
   <? 4) = false.
Proof.
  apply Z.ltb_ge. cbn [String.length]. rewrite length_append.
  cbn [String.length]. lia.
Qed.

Lemma parseLine_Untracked st line :
  Untracked (parseLine st line) = Untracked st.
Proof.
  unfold parseLine. repeat case_match; try reflexivity.
  exfalso.
  repeat match goal with
         | H : negb _ = false |- _ => apply negb_false_iff in H
         | H : _ && _ = true |- _ => apply andb_prop in H as [? ?]
         | H : Ascii.eqb _ _ = true |- _ => apply Ascii.eqb_eq in H
         end.
  congruence.
Qed.

Lemma parse_Untracked_nil output :
  Untracked (parseStatusOutput tf tr output) = [].
Proof.
  unfold Porcelain.parseStatusOutput.
  generalize (SplitLines (TrimSpace tf tr output)). intros lines.
  assert (Hgen : forall st, Untracked (fold_left parseLine lines st)
                            = Untracked st).
  { induction lines as [|line lines IH]; intros st; cbn; [done|].
    by rewrite IH, parseLine_Untracked. }
  apply Hgen.
Qed.

(** X6: the parser never reports an untracked file.  In the [switch], a
    line [?? path] already meets the second case ([y != ' ']), so it is
    filed under [Unstaged], and the third case is never reached. *)
Theorem x_untracked_never_reported output body d :
  Untracked (parseStatusOutput tf tr output) = []
  /\ (plain d = true -> noNewline body ->
      parseStatusOutput tf tr ("?? " +:+ body +:+ String d "")
      = addUnstaged (TrimByte "034" (body +:+ String d "")) zeroStatus).
Proof.
  split; [apply parse_Untracked_nil|].
  intros Hd Hb. change ("?? " +:+ body +:+ String d "")
    with (String "?" (String "?" (String " " (body +:+ String d "")))).
  rewrite parse_single_line by done.
  unfold parseLine. rewrite length_ge_4. reflexivity.
Qed.

Lemma index_column_line x y z body d :
  plain x = true -> x <> "?"%char -> plain d = true ->
  Ascii.eqb y "010" = false -> Ascii.eqb z "010" = false -> noNewline body ->
  parseStatusOutput tf tr
    (String x (String y (String z (body +:+ String d ""))))
  = addStaged (TrimByte "034" (body +:+ String d "")) zeroStatus.
Proof.
  intros Hx Hq Hd Hy Hz Hb. rewrite parse_single_line by done.
  unfold parseLine. rewrite length_ge_4. cbn [String.eqb].
  assert (Ascii.eqb x " " = false) as ->.
  { destruct (Ascii.eqb_spec x " "); [subst; by cbn in Hx|done]. }
  assert (Ascii.eqb x "?" = false) as ->.
  { by destruct (Ascii.eqb_spec x "?"). }
  reflexivity.
Qed.

(** X7: a line whose index column is neither blank nor [?] puts its path,
    without surrounding quotes, in [Staged] and nowhere else, whatever its
    work-tree column says: a file with both staged and unstaged changes
    ([MM]) is listed once, as staged. *)
Theorem x_index_column_wins x y z body d :
  plain x = true -> x <> "?"%char -> plain d = true ->
  Ascii.eqb y "010" = false -> Ascii.eqb z "010" = false -> noNewline body ->
  let line := String x (String y (String z (body +:+ String d ""))) in
  Staged (parseStatusOutput tf tr line)
  = [TrimByte "034" (body +:+ String d "")]
  /\ Unstaged (parseStatusOutput tf tr line) = []
  /\ Untracked (parseStatusOutput tf tr line) = [].
Proof.
  intros Hx Hq Hd Hy Hz Hb. cbv zeta.
  by rewrite index_column_line.
Qed.

(** X8: [TrimSpace] is applied to the whole output before it is split, so
    a blank index column on the first line is lost and the columns of that
    line shift by one: a first entry [" M <a><path>"] is reported as
    staged, under the path without its first byte [a]. *)
Theorem x_leading_blank_shifts_first_line y a body d :
  plain y = true -> y <> "?"%char -> plain d = true ->
  Ascii.eqb a "010" = false -> noNewline body ->
  parseStatusOutput tf tr
    (String " " (String y (String " " (String a (body +:+ String d "")))))
  = addStaged (TrimByte "034" (body +:+ String d "")) zeroStatus
  /\ forall output,
       parseStatusOutput tf tr (String " " output)
       = parseStatusOutput tf tr output.
Proof.
  intros Hy Hq Hd Ha Hb. split; [|reflexivity].
  rewrite <- (index_column_line y " "%char a body d) by done.
  reflexivity.
Qed.

End PorcelainFacts.

(** ** [Client.Status] and [AllFiles] *)

Section StatusFacts.
Import GoStrings Porcelain.
Context `{B : Backend}.
Variable tf : string -> string.
Variable tr : string -> string.

Lemma CurrentBranch_calls s :
  Client.gitCalls (snd (CurrentBranch s))
  = Client.gitCalls s ++ [["branch"; "--show-current"]].
Proof.
  unfold CurrentBranch.
  pose proof (execGit_calls ["branch"; "--show-current"] s) as Hc.
  destruct (Client.execGit _ s) as [[output|e] s']; [|done].
  by repeat case_match.
Qed.

(** X9: [Status] fails exactly when the [git status] invocation fails, and
    then asks nothing more.  Otherwise it succeeds after one further
    invocation, the branch query, whose failure is swallowed (the branch
    is then empty); the lists are those of the parser, and [IsClean] holds
    exactly when they are empty. *)
Theorem x_status_outcome (w : Client.Sys) :
  match Client.execGit ["status"; "--porcelain"; "-u"] w with
  | (Err e, w1) => Status tf tr w = (Err e, w1)
  | (Ok output, w1) =>
      exists st,
        fst (Status tf tr w) = Ok st
        /\ Staged st = Staged (parseStatusOutput tf tr output)
        /\ Unstaged st = Unstaged (parseStatusOutput tf tr output)
        /\ Untracked st = []
        /\ (IsClean st = true <-> Staged st = [] /\ Unstaged st = [])
        /\ (forall e, fst (CurrentBranch w1) = Err e -> Branch st = "")
        /\ Client.gitCalls (snd (Status tf tr w))
           = Client.gitCalls w
             ++ [["status"; "--porcelain"; "-u"];
                 ["branch"; "--show-current"]]
  end.
Proof.
  unfold Status.
  pose proof (execGit_calls ["status"; "--porcelain"; "-u"] w) as Hc1.
  destruct (Client.execGit _ w) as [[output|e] w1]; [|done].
  pose proof (CurrentBranch_calls w1) as Hc2.
  pose proof (parse_Untracked_nil tf tr output) as Hu.
  cbn in Hc1.
  destruct (CurrentBranch w1) as [[b|e] w2]; cbn in Hc2; eexists;
    (split; [reflexivity|]); cbn; rewrite Hu;
    (split; [done|]); (split; [done|]); (split; [done|]);
    (split; [by repeat case_match; split; try done; intros [? ?]|]);
    (split; [try done|by rewrite Hc2, Hc1, <- app_assoc]).
Qed.

End StatusFacts.

(** X10: [AllFiles] lists the unstaged paths, then the staged, then the
    untracked, each once and in the snapshot's order; every entry is
    unselected and carries the status and symbol of the list it came
    from. *)
Theorem x_allfiles_layout (s : GitStatus) :
  map Path (AllFiles s) = Unstaged s ++ Staged s ++ Untracked s
  /\ len (AllFiles s) = UnstagedCount s + StagedCount s + UntrackedCount s
  /\ Forall (fun f => Selected f = false
                      /\ f = NewFileItem (Path f) (Status f)) (AllFiles s)
  /\ map Status (AllFiles s)
     = repeat StatusUnstaged (length (Unstaged s))
       ++ repeat StatusStaged (length (Staged s))
       ++ repeat StatusUntracked (length (Untracked s)).
Proof.
  unfold AllFiles, len, UnstagedCount, StagedCount, UntrackedCount.
  repeat split.
  - rewrite !map_app, !map_map. cbn. by rewrite !map_id.
  - rewrite !length_app, !length_map. lia.
  - repeat (apply Forall_app_2);
      match goal with |- Forall _ (map _ ?l) => induction l end;
      constructor; done.
  - rewrite !map_app, !map_map. cbn.
    f_equal; [|f_equal];
      match goal with |- map _ ?l = _ => induction l; cbn; congruence end.
Qed.

(** ** The git client *)

Section ClientFacts.
Context `{B : Backend}.

Lemma prefix_app sub s t :
  String.prefix sub s = true -> String.prefix sub (s +:+ t) = true.
Proof.
  revert s. induction sub as [|c sub IH]; intros s Hp; [by destruct (s +:+ t)|].
  destruct s as [|d s]; [done|].
  change (String d s +:+ t) with (String d (s +:+ t)).
  cbn in *. destruct (Ascii.ascii_dec c d); [by apply IH|done].
Qed.

Lemma Contains_cons c s sub :
  Contains (String c s) sub = String.prefix sub (String c s) || Contains s sub.
Proof. reflexivity. Qed.

Lemma Contains_app_r s t sub :
  Contains s sub = true -> Contains (s +:+ t) sub = true.
Proof.
  induction s as [|c s IH].
  - cbn. rewrite orb_false_r. destruct sub; [|done]. intros _. by destruct t.
  - rewrite Contains_cons. intros [Hp|Hc]%orb_prop;
      change (String c s +:+ t) with (String c (s +:+ t));
      rewrite Contains_cons.
    + apply (prefix_app _ _ t) in Hp.
      change (String c s +:+ t) with (String c (s +:+ t)) in Hp.
      by rewrite Hp.
    + rewrite (IH Hc). apply orb_true_r.
Qed.

Lemma Contains_app_l s t sub :
  Contains t sub = true -> Contains (s +:+ t) sub = true.
Proof.
  intros Ht. induction s as [|c s IH]; [done|].
  change (String c s +:+ t) with (String c (s +:+ t)).
  rewrite Contains_cons, IH. apply orb_true_r.
Qed.

(** X11: [git diff] failing with an error whose text contains
    ["exit status 1"] is taken for "there are differences": [Diff] answers
    with the empty text and no error.  Any exit status beginning with the
    digit 1, such as 128, is caught by the same test. *)
Theorem x_diff_swallows_exit_status_1
    (path : string) (staged : bool) (s : Client.Sys) (e : string) :
  snd (fst (run_git (["diff"; "--color=always"]
                     ++ (if staged then ["--cached"] else [])
                     ++ ["--"; path]) (Client.repo s))) = Some e ->
  Contains e "exit status 1" = true ->
  fst (Client.Diff path staged s) = Ok "".
Proof.
  intros Hrun Hc. unfold Client.Diff, Client.execGit.
  destruct (run_git _ _) as [[output e'] r]. cbn in Hrun. subst e'.
  cbn [hd app].
  assert (Contains ("git " +:+ "diff" +:+ " failed: " +:+ e
                    +:+ String "010" "" +:+ output) "exit status 1" = true)
    as ->; [|done].
  apply (Contains_app_l "git "%string), (Contains_app_l "diff"%string),
    (Contains_app_l " failed: "%string), Contains_app_r, Hc.
Qed.

(** X12: with no path to act on, [Stage] and [Unstage] succeed without
    running git; with at least one they run git exactly once, on all the
    paths at once, after the [--] separator. *)
Theorem x_stage_and_unstage_calls files (s : Client.Sys) :
  match files with
  | [] => Client.Stage files s = (None, s)
          /\ Client.Unstage files s = (None, s)
  | _ :: _ =>
      Client.gitCalls (snd (Client.Stage files s))
      = Client.gitCalls s ++ [["add"; "--"] ++ files]
      /\ Client.gitCalls (snd (Client.Unstage files s))
         = Client.gitCalls s ++ [["reset"; "HEAD"; "--"] ++ files]
  end.
Proof.
  destruct files as [|f files]; [done|].
  unfold Client.Stage, Client.Unstage.
  pose proof (execGit_calls (["add"; "--"] ++ f :: files) s) as H1.
  pose proof (execGit_calls (["reset"; "HEAD"; "--"] ++ f :: files) s) as H2.
  destruct (Client.execGit (["add"; "--"] ++ _) s) as [[?|?] ?],
    (Client.execGit (["reset"; "HEAD"; "--"] ++ _) s) as [[?|?] ?]; done.
Qed.

End ClientFacts.

(** ** The selection model *)

Section SelectionFacts.
Import Selection.
Context `{W : Widgets}.

Lemma selectedFrom_synced fs : forall k sel,
  (forall (i : nat) f, fs !! i = Some f ->
                       Selected f = isSelected sel (k + Z.of_nat i)) ->
  selectedFrom k sel fs = List.filter Selected fs.
Proof.
  induction fs as [|f fs IH]; intros k sel Hs; [done|].
  cbn [selectedFrom List.filter].
  pose proof (Hs 0%nat f eq_refl) as H0. cbn in H0.
  rewrite Z.add_0_r in H0. rewrite <- H0.
  rewrite (IH (k + 1) sel); [done|].
  intros i g Hg. rewrite (Hs (S i) g Hg). f_equal. lia.
Qed.

Lemma getSelectedFiles_synced (m : Model) :
  synced m -> getSelectedFiles m = List.filter Selected (files m).
Proof.
  intros Hs. unfold getSelectedFiles. apply selectedFrom_synced.
  intros i f Hf. by rewrite (Hs i f Hf).
Qed.

Lemma selectedFrom_member fs : forall k sel (i : nat) f,
  fs !! i = Some f -> isSelected sel (k + Z.of_nat i) = true ->
  In f (selectedFrom k sel fs).
Proof.
  induction fs as [|g fs IH]; intros k sel i f Hf Hsel; [done|].
  cbn [selectedFrom]. destruct i as [|i].
  - cbn in Hf. injection Hf as ->. rewrite Z.add_0_r in Hsel.
    rewrite Hsel. by left.
  - cbn in Hf.
    assert (Hin : In f (selectedFrom (k + 1) sel fs)).
    { apply (IH _ _ i); [done|]. rewrite <- Hsel. f_equal. lia. }
    destruct (isSelected sel k); [by right|done].
Qed.

Lemma selectAll_lookup (l : list nat) : forall (s : gmap Z bool) (i : nat),
  (In i l \/ s !! Z.of_nat i = Some true) ->
  foldl (fun s i => <[Z.of_nat i := true]> s) s l !! Z.of_nat i = Some true.
Proof.
  induction l as [|a l IH]; intros s i [Hin|Hs]; cbn; try done.
  - destruct Hin as [->|Hin].
    + apply IH. right. apply lookup_insert_eq.
    + apply IH. by left.
  - apply IH. right.
    destruct (decide (Z.of_nat a = Z.of_nat i)) as [->|Hne].
    + apply lookup_insert_eq.
    + by rewrite lookup_insert_ne.
Qed.

Lemma toggle_synced (m : Model) index :
  synced m -> synced (toggleSelection index m).
Proof.
  intros Hs. unfold toggleSelection.
  destruct (Z.ltb_spec index 0), (Z.leb_spec (len (files m)) index);
    cbn [orb]; try done.
  intros i f. cbn. intros Hf.
  destruct (decide (i = Z.to_nat index)) as [->|Hne].
  - rewrite list_lookup_alter_eq in Hf.
    destruct (files m !! Z.to_nat index) as [g|]; [|done].
    injection Hf as <-. cbn. unfold isSelected at 2.
    by rewrite Z2Nat.id, lookup_insert_eq by lia.
  - rewrite list_lookup_alter_ne in Hf by done.
    unfold isSelected. rewrite lookup_insert_ne by lia.
    by apply Hs.
Qed.

Lemma selectAll_synced (m : Model) : synced (selectAll m).
Proof.
  intros i f. cbn. rewrite list_lookup_fmap.
  destruct (files m !! i) as [g|] eqn:Hg; [|done].
  intros [= <-]. cbn. unfold isSelected.
  rewrite selectAll_lookup; [done|].
  left. apply in_seq. apply lookup_lt_Some in Hg. lia.
Qed.

Lemma deselectAll_synced (m : Model) : synced (deselectAll m).
Proof.
  intros i f. cbn. rewrite list_lookup_fmap.
  destruct (files m !! i) as [g|]; [|done].
  by intros [= <-].
Qed.

(** What a key press can do to the files and the selection. *)
Lemma key_selection_cases key (m : Model) :
  let m' := fst (Update (KeyMsg key) m) in
  (files m' = files m /\ selectedFiles m' = selectedFiles m)
  \/ m' = toggleSelection (list_Index (list_ m)) m
  \/ m' = selectAll m
  \/ m' = deselectAll m.
Proof.
  unfold Update, handleKeyMsg, handleFileListKeys, handleCommitKeys,
    handleCommitMessageKeys, handleCommitDateKeys, handleHelpKeys,
    handleModifyHeadKeys, handleHeadMenuKeys, handleHeadAmendMessageKeys,
    handleHeadAmendFilesKeys, navigateList, applySelection,
    enterAmendMessageMode.
  cbv zeta. repeat case_match; cbn [fst]; auto.
Qed.

(** X13: the flags on the file entries mirror the selection map, and no
    key press ever breaks that: if every entry's flag equals the map's
    value at its position before a key is handled, the same holds
    after. *)
Theorem x_keys_keep_flags_in_sync key (m : Model) :
  synced m -> synced (fst (Update (KeyMsg key) m)).
Proof.
  intros Hs.
  destruct (key_selection_cases key m) as [[Hf Hsel] | [-> | [-> | ->]]].
  - intros i f. rewrite Hf, Hsel. apply Hs.
  - by apply toggle_synced.
  - apply selectAll_synced.
  - apply deselectAll_synced.
Qed.

(** X14: [getSelectedFiles] reads the map, not the flags; when the two
    agree it returns exactly the entries whose flag is set, in list
    order. *)
Theorem x_selected_files_are_flagged (m : Model) :
  synced m ->
  getSelectedFiles m = List.filter Selected (files m)
  /\ Forall (fun f => Selected f = true) (getSelectedFiles m).
Proof.
  intros Hs. rewrite getSelectedFiles_synced by done. split; [done|].
  apply List.Forall_forall. by intros f [_ Hf]%filter_In.
Qed.

(** X15: after select-all every file is selected, whatever the selection
    was before: the selected files are all the files, each with its flag
    set. *)
Theorem x_select_all_selects_every_file (m : Model) :
  getSelectedFiles (selectAll m) = map (set_Selected true) (files m)
  /\ length (getSelectedFiles (selectAll m)) = length (files m).
Proof.
  assert (Hg : getSelectedFiles (selectAll m)
               = map (set_Selected true) (files m)).
  { rewrite getSelectedFiles_synced by apply selectAll_synced. cbn.
    induction (files m) as [|f fs IH]; [done|]. cbn. by rewrite IH. }
  split; [done|]. by rewrite Hg, length_map.
Qed.

(** X16: after deselect-all nothing is selected: the map is empty, no
    flag is set, and [getSelectedFiles] is empty; in particular select-all
    followed by deselect-all leaves the files as they were, all
    unselected. *)
Theorem x_deselect_all_selects_nothing (m : Model) :
  getSelectedFiles (deselectAll m) = []
  /\ selectedFiles (deselectAll m) = ∅
  /\ Forall (fun f => Selected f = false) (files (deselectAll m))
  /\ files (deselectAll (selectAll m)) = files (deselectAll m)
  /\ getSelectedFiles (deselectAll (selectAll m)) = [].
Proof.
  assert (Hnone : forall m0 : Model, getSelectedFiles (deselectAll m0) = []).
  { intros m0. rewrite getSelectedFiles_synced by apply deselectAll_synced.
    cbn. induction (files m0) as [|f fs IH]; [done|]. cbn. exact IH. }
  repeat split; try apply Hnone.
  - cbn. induction (files m); constructor; done.
  - cbn. rewrite map_map. apply map_ext. by intros [].
Qed.

(** X17: toggling the same position twice restores which positions are
    selected.  The map itself is not restored: an in-range position that
    had no entry is left with an entry mapped to [false]. *)
Theorem x_toggle_twice (m : Model) (index i : Z) :
  isSelected (selectedFiles (toggleSelection index (toggleSelection index m))) i
  = isSelected (selectedFiles m) i
  /\ selectedFiles (toggleSelection index (toggleSelection index m))
     = if (index <? 0) || (len (files m) <=? index)
       then selectedFiles m
       else <[index := isSelected (selectedFiles m) index]> (selectedFiles m).
Proof.
  assert (Hmap : selectedFiles (toggleSelection index (toggleSelection index m))
     = if (index <? 0) || (len (files m) <=? index)
       then selectedFiles m
       else <[index := isSelected (selectedFiles m) index]> (selectedFiles m)).
  { unfold toggleSelection at 2.
    destruct ((index <? 0) || (len (files m) <=? index)) eqn:Hout.
    - unfold toggleSelection. by rewrite Hout.
    - unfold toggleSelection. cbn. unfold len in *. rewrite length_alter, Hout.
      cbn. unfold isSelected at 1. rewrite lookup_insert_eq. cbn.
      by rewrite insert_insert_eq, negb_involutive. }
  split; [|exact Hmap]. rewrite Hmap.
  destruct ((index <? 0) || (len (files m) <=? index)); [done|].
  unfold isSelected.
  destruct (decide (index = i)) as [->|Hne].
  - by rewrite lookup_insert_eq.
  - by rewrite lookup_insert_ne.
Qed.

(** X18: a status refresh rebuilds the file entries, all unselected, but
    keeps the selection map; a position selected before the refresh then
    designates whichever file the new snapshot has at that position. *)
Theorem x_refresh_keeps_selected_positions
    (m : Model) (status : GitStatus) (i : nat) f :
  isSelected (selectedFiles m) (Z.of_nat i) = true ->
  AllFiles status !! i = Some f ->
  let m' := fst (Update (gitStatusMsg status) m) in
  selectedFiles m' = selectedFiles m
  /\ files m' = AllFiles status
  /\ Selected f = false
  /\ In f (getSelectedFiles m').
Proof.
  intros Hsel Hf. cbv zeta.
  assert (Hfiles : files (fst (Update (gitStatusMsg status) m))
                   = AllFiles status).
  { unfold Update. repeat case_match; reflexivity. }
  assert (Hmap : selectedFiles (fst (Update (gitStatusMsg status) m))
                 = selectedFiles m).
  { unfold Update. repeat case_match; reflexivity. }
  repeat split; try done.
  - pose proof (x := Hf). unfold AllFiles in x.
    apply list_elem_of_lookup_2, list_elem_of_In in x.
    rewrite !in_app_iff, !in_map_iff in x.
    destruct x as [(? & <- & _)|[(? & <- & _)|(? & <- & _)]]; done.
  - unfold getSelectedFiles. rewrite Hfiles, Hmap.
    by apply (selectedFrom_member _ 0 _ i).
Qed.

End SelectionFacts.

(** ** The commands *)

Section CommandFacts.
Context `{W : Widgets} `{B : Backend}.

Lemma Stage_calls f fs (s : Client.Sys) :
  Client.gitCalls (snd (Client.Stage (f :: fs) s))
  = Client.gitCalls s ++ [["add"; "--"] ++ f :: fs].
Proof.
  unfold Client.Stage.
  pose proof (execGit_calls (["add"; "--"] ++ f :: fs) s) as Hc.
  by destruct (Client.execGit _ s) as [[?|?] ?].
Qed.

Lemma Unstage_calls f fs (s : Client.Sys) :
  Client.gitCalls (snd (Client.Unstage (f :: fs) s))
  = Client.gitCalls s ++ [["reset"; "HEAD"; "--"] ++ f :: fs].
Proof.
  unfold Client.Unstage.
  pose proof (execGit_calls (["reset"; "HEAD"; "--"] ++ f :: fs) s) as Hc.
  by destruct (Client.execGit _ s) as [[?|?] ?].
Qed.

Lemma filter_split_length {A} (p : A -> bool) (l : list A) :
  (length (List.filter p l) + length (List.filter (fun x => negb (p x)) l)
   = length l)%nat.
Proof.
  induction l as [|x l IH]; [done|]. cbn.
  destruct (p x); cbn; lia.
Qed.

(** X19: the apply command acts on one side of the selection only.  When
    the entries that are not staged outnumber the staged ones, it runs one
    [git add] on the former and leaves the staged ones alone; otherwise,
    ties included, it runs one [git reset HEAD] on the staged ones and
    leaves the others alone.  It never runs both, and it does not touch
    the diff cache. *)
Theorem x_apply_follows_the_majority (files : list FileItem) (w : World) :
  files <> [] ->
  let staged := map Path (List.filter isStaged files) in
  let unstaged := map Path (List.filter (fun f => negb (isStaged f)) files) in
  Client.gitCalls (sys (snd (toggleSelectionCmd files w)))
  = Client.gitCalls (sys w)
    ++ [if len staged <? len unstaged
        then ["add"; "--"] ++ unstaged
        else ["reset"; "HEAD"; "--"] ++ staged]
  /\ diffCache (snd (toggleSelectionCmd files w)) = diffCache w.
Proof.
  intros Hne. cbv zeta. unfold toggleSelectionCmd, len.
  pose proof (filter_split_length isStaged files) as Hlen.
  rewrite !length_map.
  destruct (Z.ltb_spec
              (Z.of_nat (length (List.filter isStaged files)))
              (Z.of_nat (length (List.filter
                                   (fun f => negb (isStaged f)) files))))
    as [Hlt|Hge].
  - destruct (List.filter (fun f => negb (isStaged f)) files)
      as [|f fs] eqn:Hf; [cbn in Hlt; lia|].
    cbn [map]. pose proof (Stage_calls (Path f) (map Path fs) (sys w)) as Hc.
    by destruct (Client.Stage _ (sys w)) as [[?|] ?].
  - destruct (List.filter isStaged files) as [|f fs] eqn:Hf.
    { destruct files; [done|]. cbn in *. lia. }
    cbn [map]. pose proof (Unstage_calls (Path f) (map Path fs) (sys w)) as Hc.
    by destruct (Client.Unstage _ (sys w)) as [[?|] ?].
Qed.

(** X20: [fetchDiffCmd] never reports an error through the message's
    [err] field: every failure is turned into preview text.  So the
    message it posts always carries the requested path and no error, and
    applying it puts that text in the preview. *)
Theorem x_fetch_never_sets_err (file : FileItem) (w : World) (m : Model) :
  exists content,
    fst (fetchDiffCmd file w) = gitDiffMsg (Path file) content None
    /\ previewContent (fst (Update (fst (fetchDiffCmd file w)) m)) = content.
Proof.
  unfold fetchDiffCmd, fetchByStatus.
  repeat case_match; simplify_eq; eexists; split; reflexivity.
Qed.

Lemma fetchDiffCmd_keeps_entries (file : FileItem) (w : World) p text :
  diffCache w !! p = Some text ->
  diffCache (snd (fetchDiffCmd file w)) !! p = Some text.
Proof.
  intros Hp. unfold fetchDiffCmd.
  destruct (diffCache w !! Path file) eqn:Hhit; [done|].
  assert (Hne : Path file <> p) by congruence.
  repeat case_match; simplify_eq; cbn; try done;
    by rewrite lookup_insert_ne.
Qed.

Lemma other_commands_keep_cache (c : Cmd) (w w' : World) msg :
  runCmd c w = Some (msg, w') ->
  (forall file, c <> CmdFetchDiff file) ->
  diffCache w' = diffCache w.
Proof.
  intros Hrun Hno.
  destruct c; cbn in Hrun; simplify_eq; try reflexivity;
    try (by destruct (Hno file));
    unfold fetchGitStatus, refreshStatusCmd, stageFilesCmd, unstageFilesCmd,
      toggleSelectionCmd, commitCmd, amendMessageCmd, softResetHeadCmd,
      fetchHeadInfoCmd in *;
    repeat case_match; simplify_eq; reflexivity.
Qed.

(** X21: no command ever removes or changes a cached preview: an entry of
    the diff cache is still there, with the same text, after any command
    has run.  Commands other than the diff fetch leave the whole cache as
    it is, so staging or committing a file does not invalidate its
    preview. *)
Theorem x_cache_entries_are_permanent (c : Cmd) (w w' : World) msg p text :
  runCmd c w = Some (msg, w') ->
  diffCache w !! p = Some text ->
  diffCache w' !! p = Some text
  /\ ((forall file, c <> CmdFetchDiff file) -> diffCache w' = diffCache w).
Proof.
  intros Hrun Hp. split.
  - destruct c;
      try (rewrite (other_commands_keep_cache _ w w' msg Hrun);
           [done|intros ?; discriminate]).
    cbn in Hrun. simplify_eq.
    pose proof (fetchDiffCmd_keeps_entries file w p text Hp) as Hk.
    by destruct (fetchDiffCmd file w); simplify_eq.
  - intros Hno. by apply (other_commands_keep_cache c w w' msg).
Qed.

(** X22: an empty commit message never reaches git.  [commitCmd] and
    [amendMessageCmd] called with it report a failure and run no git
    command. *)
Theorem x_empty_message_runs_no_git (date : string) (w : World) :
  (exists e, fst (commitCmd "" date w) = gitCommitMsg false (Some e) "")
  /\ snd (commitCmd "" date w) = w
  /\ amendMessageCmd "" w
     = (gitAmendMsg false (Some "commit message cannot be empty") "", w).
Proof.
  unfold commitCmd, amendMessageCmd, Client.Commit. cbn.
  destruct w as [s cache].
  repeat case_match; simplify_eq; cbn; repeat split; by eexists.
Qed.

End CommandFacts.

(** ** More of the update loop *)

Section MoreUpdateFacts.
Context `{W : Widgets}.

(** X23: while the error overlay is up, a key press never changes the
    model, so it does not dismiss the overlay either; the only command a
    key can yield is quit, for the quit binding.  The overlay goes when
    the empty [errorMsg] of its timer is applied. *)
Theorem x_overlay_freezes_keys (m : Model) key :
  err m <> "" ->
  fst (Update (KeyMsg key) m) = m
  /\ snd (Update (KeyMsg key) m)
     = (if Matches key (Quit (keys m)) then CmdQuit else CmdNil)
  /\ Update (errorMsg "") m = (set_err "" m, CmdNil).
Proof.
  intros He. unfold Update.
  destruct (String.eqb_spec (err m) ""); [done|]. cbn.
  by destruct (Matches key (Quit (keys m))).
Qed.

(** X24: the program can be quit from the file list and from the error
    overlay only.  In the commit, HEAD and help views no key yields the
    quit command: there [q] is typed, cancels or closes, and [ctrl+c] is
    handled like any other key. *)
Theorem x_no_quit_outside_file_list (m : Model) key :
  err m = "" -> state m <> StateFileList ->
  snd (Update (KeyMsg key) m) <> CmdQuit.
Proof.
  intros He Hs. unfold Update. rewrite He. cbn.
  unfold handleKeyMsg, handleCommitKeys, handleCommitMessageKeys,
    handleCommitDateKeys, handleHelpKeys, handleModifyHeadKeys,
    handleHeadMenuKeys, handleHeadAmendMessageKeys, handleHeadAmendFilesKeys.
  repeat case_match; simplify_eq; cbn; done.
Qed.

(** X25: the page-up, page-down and search bindings of the key map have no
    case in the file list's key switch: their keys leave the model as it is
    and yield no command. *)
Theorem x_paging_and_search_keys_do_nothing (m : Model) key :
  err m = "" -> state m = StateFileList -> keys m = DefaultKeyMap ->
  Matches key (PageUp DefaultKeyMap) || Matches key (PageDown DefaultKeyMap)
  || Matches key (Search DefaultKeyMap) = true ->
  Update (KeyMsg key) m = (m, CmdNil).
Proof.
  intros He Hs Hk Hkey. unfold Update. rewrite He. cbn.
  unfold handleKeyMsg. rewrite Hs. unfold handleFileListKeys. rewrite Hk.
  unfold Matches in *. cbn in Hkey |- *.
  repeat match type of Hkey with
         | context [String.eqb key ?s] =>
             destruct (String.eqb_spec key s); [subst key; reflexivity|]
         end.
  discriminate.
Qed.

(** X26: the message step of the commit flow.  Confirming an empty
    message is refused: the error is shown and the step stays.  Confirming
    a non-empty one records it and moves to the date step.  Cancelling goes
    back to the file list with the draft emptied.  None of them dispatches
    a backend command. *)
Theorem x_commit_message_step (m : Model) :
  err m = "" -> state m = StateCommitMessage ->
  commitState m = CommitStateMessage ->
  (textarea_Value (commitTextarea m) = "" ->
   Update (KeyMsg "ctrl+d") m
   = (set_err "Commit message cannot be empty" (set_commitMessage "" m),
      clearError))
  /\ (textarea_Value (commitTextarea m) <> "" ->
      let m' := fst (Update (KeyMsg "ctrl+d") m) in
      state m' = StateCommitMessage /\ commitState m' = CommitStateDate
      /\ commitMessage m' = textarea_Value (commitTextarea m)
      /\ err m' = "" /\ snd (Update (KeyMsg "ctrl+d") m) = CmdNil)
  /\ (let m' := fst (Update (KeyMsg "esc") m) in
      state m' = StateFileList /\ commitMessage m' = ""
      /\ commitDate m' = "" /\ snd (Update (KeyMsg "esc") m) = CmdNil).
Proof.
  intros He Hs Hc. unfold Update. rewrite He. cbn.
  unfold handleKeyMsg. rewrite Hs. unfold handleCommitKeys. rewrite Hc.
  unfold handleCommitMessageKeys. cbn.
  repeat split.
  - intros ->. reflexivity.
  - by destruct (String.eqb_spec (textarea_Value (commitTextarea m)) "").
  - by destruct (String.eqb_spec (textarea_Value (commitTextarea m)) "").
  - by destruct (String.eqb_spec (textarea_Value (commitTextarea m)) "").
  - destruct (String.eqb_spec (textarea_Value (commitTextarea m)) "");
      [done|]. by cbn.
  - by destruct (String.eqb_spec (textarea_Value (commitTextarea m)) "").
Qed.

(** X27: the date step of the commit flow.  Confirming dispatches the
    commit with the recorded message and the text of the date field,
    whatever that text is (it is validated by the command, not here), and
    stays at the date step until the result comes; cancelling goes back to
    the message step and keeps the message. *)
Theorem x_commit_date_step (m : Model) :
  err m = "" -> state m = StateCommitMessage ->
  commitState m = CommitStateDate ->
  (let m' := fst (Update (KeyMsg "enter") m) in
   snd (Update (KeyMsg "enter") m)
   = CmdCommit (commitMessage m) (textinput_Value (commitInput m))
   /\ state m' = StateCommitMessage /\ commitState m' = CommitStateDate
   /\ commitMessage m' = commitMessage m
   /\ commitDate m' = textinput_Value (commitInput m))
  /\ (let m' := fst (Update (KeyMsg "esc") m) in
      snd (Update (KeyMsg "esc") m) = CmdNil
      /\ state m' = StateCommitMessage /\ commitState m' = CommitStateMessage
      /\ commitMessage m' = commitMessage m).
Proof.
  intros He Hs Hc. unfold Update. rewrite He. cbn.
  unfold handleKeyMsg. rewrite Hs. unfold handleCommitKeys. rewrite Hc.
  cbn. by rewrite Hs.
Qed.

(** X28: amending with an empty message is refused by the key handler:
    the error is shown, the state stays at the amend-message input, and no
    backend command is dispatched. *)
Theorem x_amend_refuses_empty_message (m : Model) :
  err m = "" -> state m = StateModifyHead ->
  headModifyState m = HeadModifyStateAmendMessage ->
  textarea_Value (headMessageTextarea m) = "" ->
  Update (KeyMsg "ctrl+d") m
  = (set_err "Commit message cannot be empty" m, clearError)
  /\ state (fst (Update (KeyMsg "ctrl+d") m)) = StateModifyHead
  /\ headModifyState (fst (Update (KeyMsg "ctrl+d") m))
     = HeadModifyStateAmendMessage.
Proof.
  intros He Hs Hh Hv. unfold Update. rewrite He. cbn.
  unfold handleKeyMsg. rewrite Hs. unfold handleModifyHeadKeys. rewrite Hh.
  unfold handleHeadAmendMessageKeys. cbn. rewrite Hv. cbn.
  by rewrite Hs, Hh.
Qed.

Lemma resize_keeps_rest (m : Model) Width Height :
  let m' := fst (Update (WindowSizeMsg Width Height) m) in
  err m' = err m /\ state m' = state m /\ keys m' = keys m
  /\ showPreview m' = showPreview m
  /\ layout m' = Layout.NewLayout Width Height.
Proof. unfold Update. cbv zeta. repeat case_match; cbn; done. Qed.

(** X29: in a terminal narrower than 100 columns the preview-focus key
    does nothing: after a resize to such a width, [p] and [P] leave the
    model as it is. *)
Theorem x_no_preview_focus_when_narrow (m : Model) Width Height :
  Width < 100 -> err m = "" -> state m = StateFileList ->
  keys m = DefaultKeyMap ->
  let m' := fst (Update (WindowSizeMsg Width Height) m) in
  previewFocused m' = previewFocused m
  /\ Update (KeyMsg "p") m' = (m', CmdNil)
  /\ Update (KeyMsg "P") m' = (m', CmdNil).
Proof.
  intros Hw He Hs Hk.
  destruct (resize_keeps_rest m Width Height) as (He' & Hs' & Hk' & _ & Hl).
  cbv zeta in *.
  set (m' := fst (Update (WindowSizeMsg Width Height) m)) in *.
  assert (Hno : Layout.HasPreviewPane (layout m') = false).
  { rewrite Hl. unfold Layout.HasPreviewPane.
    by rewrite narrow_preview_width. }
  split.
  { subst m'. unfold Update. repeat case_match; reflexivity. }
  split; unfold Update; rewrite He', He; cbn;
    unfold handleKeyMsg; rewrite Hs', Hs;
    unfold handleFileListKeys; rewrite Hk', Hk; cbn;
    by rewrite Hno, andb_false_r.
Qed.

End MoreUpdateFacts.

(** ** More of the layout engine and of binary detection *)

Section LayoutBinaryFacts.
Import Layout Binary.

(** X1: from 100 columns on (and as long as doubling the width does not
    overflow) the preview pane is enabled, both panes are at least 30
    columns wide, and the two panes and the two-column gutter tile the
    width exactly; the list takes half the width below 140 columns and two
    fifths from there on, rounded down. *)
Theorem x_wide_layout_tiles width height :
  100 <= width -> 2 * width <= GoInt.max_int ->
  let l := NewLayout width height in
  HasPreviewPane l = true
  /\ ListWidth l + PreviewWidth l + 2 = width
  /\ 30 <= ListWidth l /\ 30 <= PreviewWidth l
  /\ ListWidth l = (if width <? 140 then width / 2 else 2 * width / 5).
Proof.
  unfold GoInt.max_int. intros Hlo Hhi. cbv zeta.
  unfold NewLayout, HasPreviewPane, GoInt.div, GoInt.mul, GoInt.sub.
  destruct (Z.ltb_spec width 100); [lia|].
  assert (Hw : forall z, - 2 ^ 63 <= z <= 2 ^ 63 - 1 -> GoInt.wrap z = z).
  { intros z Hz. apply wrap_id. by unfold GoInt.in_range,
      GoInt.min_int, GoInt.max_int. }
  assert (Hh : 0 <= width / 2 <= width).
  { split; [apply Z.div_pos; lia|]. apply Z.div_le_upper_bound; lia. }
  assert (Hf : 0 <= 2 * width / 5 <= width).
  { split; [apply Z.div_pos; lia|]. apply Z.div_le_upper_bound; lia. }
  assert (Hh50 : 50 <= width / 2) by (apply Z.div_le_lower_bound; lia).
  assert (Hh2 : 2 * (width / 2) <= width) by (apply Z.mul_div_le; lia).
  assert (Hf5 : 5 * (2 * width / 5) <= 2 * width)
    by (apply Z.mul_div_le; lia).
  rewrite (Z.mul_comm width 2), (Hw (2 * width)) by lia.
  rewrite !Z.quot_div_nonneg by lia.
  rewrite (Hw (width / 2)), (Hw (2 * width / 5)) by lia.
  rewrite (Hw (width - width / 2)), (Hw (width - 2 * width / 5)) by lia.
  rewrite (Hw (width - width / 2 - 2)),
    (Hw (width - 2 * width / 5 - 2)) by lia.
  destruct (Z.ltb_spec width 140).
  - assert (width / 2 < 70) by (apply Z.div_lt_upper_bound; lia).
    destruct (Z.ltb_spec (width / 2) 30); [lia|].
    destruct (Z.ltb_spec (width - width / 2 - 2) 30); [lia|].
    cbn. repeat split; lia.
  - assert (56 <= 2 * width / 5) by (apply Z.div_le_lower_bound; lia).
    destruct (Z.ltb_spec (2 * width / 5) 30); [lia|].
    destruct (Z.ltb_spec (width - 2 * width / 5 - 2) 30); [lia|].
    cbn. repeat split; lia.
Qed.

(** X2: whatever the terminal size, the layout keeps its minimum sizes:
    the list is at least 30 columns wide, the preview is either disabled
    (width 0) or at least 30 columns wide, the content is at least 5 rows
    high and the panes at least 3. *)
Theorem x_layout_minimum_sizes width height :
  let l := NewLayout width height in
  30 <= ListWidth l
  /\ (PreviewWidth l = 0 \/ 30 <= PreviewWidth l)
  /\ 5 <= ContentHeight l
  /\ 3 <= ListHeight l /\ ListHeight l = PreviewHeight l.
Proof.
  cbv zeta.
  assert (Hc : 5 <= ContentHeight (NewLayout width height) <= GoInt.max_int).
  { unfold NewLayout. pose proof (wrap_in_range (height - 5)) as [_ Hr].
    unfold GoInt.sub. set (c := GoInt.wrap (height - 5)) in *.
    unfold GoInt.max_int in *.
    destruct (Z.ltb_spec c 5); repeat case_match; cbn; lia. }
  assert (Hl : ListHeight (NewLayout width height)
               = ContentHeight (NewLayout width height) - 2).
  { unfold ListHeight. apply sub_exact.
    unfold GoInt.min_int, GoInt.max_int in *. lia. }
  split; [|split; [|split; [lia|split; [lia|done]]]].
  - unfold NewLayout.
    repeat match goal with
           | |- context [if ?a <? ?b then _ else _] =>
               destruct (Z.ltb_spec a b)
           end; cbn; lia.
  - unfold NewLayout.
    repeat match goal with
           | |- context [if ?a <? ?b then _ else _] =>
               destruct (Z.ltb_spec a b)
           end; cbn; lia.
Qed.

(** X3: what [isBinaryFile] decides.  A buffer is binary exactly when it
    holds a NUL byte anywhere, or is not empty and the bytes outside the
    text set make up at least 31% of its first 8192 bytes (the percentage
    compared with 30 is rounded down). *)
Theorem x_binary_verdict data :
  isBinaryFile data = true
  <-> In x00 data
      \/ (data <> [] /\ 31 * sampleSize data <= 100 * nonTextCount data).
Proof. apply isBinaryFile_spec. Qed.

(** X4: a buffer made only of tabs, line feeds, carriage returns,
    printable ASCII and bytes 128 to 191 is never taken for binary,
    whatever its length. *)
Theorem x_text_bytes_are_text data :
  Forall Stated.allowedByte data -> isBinaryFile data = false.
Proof. apply allowed_bytes_are_text. Qed.

Lemma containsNul_app a b :
  containsNul (a ++ b) = containsNul a || containsNul b.
Proof. unfold containsNul. apply existsb_app. Qed.

(** X5: beyond the first 8192 bytes only NUL bytes matter: two buffers
    that share their first 8192 bytes or more and have no NUL after them
    get the same verdict. *)
Theorem x_only_nul_counts_after_8k (pre t1 t2 : list byte) :
  8192 <= Z.of_nat (length pre) ->
  containsNul t1 = false -> containsNul t2 = false ->
  isBinaryFile (pre ++ t1) = isBinaryFile (pre ++ t2).
Proof.
  intros Hlen H1 H2.
  assert (Hs : forall t, sampleSize (pre ++ t) = 8192).
  { intros t. unfold sampleSize. rewrite length_app.
    destruct (Z.ltb_spec 8192 (Z.of_nat (length pre + length t))); lia. }
  assert (Hn : forall t, nonTextCount (pre ++ t) = nonTextCount (pre ++ [])).
  { intros t. unfold nonTextCount. rewrite !Hs.
    assert (Hz : (Z.to_nat 8192 <= length pre)%nat) by lia.
    by rewrite !take_app_le by exact Hz. }
  unfold isBinaryFile.
  rewrite !containsNul_app, H1, H2, !Hs, (Hn t1), (Hn t2), !length_app.
  destruct (containsNul pre); [done|]. cbn [orb].
  destruct (Z.ltb_spec 0 (Z.of_nat (length pre + length t1))),
    (Z.ltb_spec 0 (Z.of_nat (length pre + length t2))); try lia. done.
Qed.

End LayoutBinaryFacts.

(** ** The error text of a failed apply *)

Section ApplyErrorFacts.
Context `{B : Backend}.

(** X30: when the [git add] of the apply command fails, the text put in
    the error overlay names the failure three times over: the command's
    prefix, the client's prefix and [execGit]'s, followed by the process
    error and, after a line feed, git's own output. *)
Theorem x_failed_stage_error_text
    (files : list FileItem) (w : World) (output e : string) :
  let staged := map Path (List.filter isStaged files) in
  let unstaged := map Path (List.filter (fun f => negb (isStaged f)) files) in
  len staged < len unstaged ->
  fst (run_git (["add"; "--"] ++ unstaged) (Client.repo (sys w)))
  = (output, Some e) ->
  fst (toggleSelectionCmd files w)
  = errorMsg ("Failed to stage files: failed to stage files: git add failed: "
              +:+ e +:+ String "010" "" +:+ output).
Proof.
  cbv zeta. intros Hlt Hrun. unfold toggleSelectionCmd.
  destruct (Z.ltb_spec (len (map Path (List.filter isStaged files)))
              (len (map Path (List.filter
                                (fun f => negb (isStaged f)) files))));
    [|lia].
  destruct (map Path (List.filter (fun f => negb (isStaged f)) files))
    as [|p ps] eqn:Hu; [unfold len in Hlt; cbn in Hlt; lia|].
  unfold Client.Stage, Client.execGit.
  destruct (run_git _ _) as [[o e'] r]. cbn in Hrun. simplify_eq.
  reflexivity.
Qed.

End ApplyErrorFacts.

(** ** Runs of the further properties on the samples *)

Import Samples.

Lemma x_wide_layout_at_120 :
  Layout.ListWidth (Layout.NewLayout 120 40)
  + Layout.PreviewWidth (Layout.NewLayout 120 40) + 2 = 120.
Proof.
  assert (Hlo : 100 <= 120) by lia.
  assert (Hhi : 2 * 120 <= GoInt.max_int) by (unfold GoInt.max_int; lia).
  exact (proj1 (proj2 (x_wide_layout_tiles 120 40 Hlo Hhi))).
Defined.

Lemma x_text_bytes_sample :
  Binary.isBinaryFile ["h"; "i"; x0a]%byte = false.
Proof.
  apply x_text_bytes_are_text.
  repeat constructor; unfold allowedByte; vm_compute; intuition discriminate.
Defined.

Lemma x_only_nul_counts_sample :
  Binary.isBinaryFile (repeat "a"%byte (Z.to_nat 8192) ++ [])
  = Binary.isBinaryFile (repeat "a"%byte (Z.to_nat 8192) ++ [x01]).
Proof.
  apply x_only_nul_counts_after_8k; [|reflexivity|reflexivity].
  rewrite repeat_length. vm_compute. discriminate.
Defined.

Lemma x_untracked_sample :
  Untracked (parse "?? new.txt") = []
  /\ Unstaged (parse "?? new.txt") = ["new.txt"].
Proof.
  destruct (x_untracked_never_reported (fun s => s) (fun s => s)
              "?? new.txt" "new.tx" "t") as [Hnone Hline].
  split; [exact Hnone|].
  assert (Hno : GoStrings.noNewline "new.tx") by (repeat constructor).
  exact (f_equal Unstaged (Hline eq_refl Hno)).
Defined.

Lemma x_index_column_sample : Staged (parse "MM a.txt") = ["a.txt"].
Proof.
  assert (Hq : "M"%char <> "?"%char) by discriminate.
  assert (Hno : GoStrings.noNewline "a.tx") by (repeat constructor).
  exact (proj1 (x_index_column_wins (fun s => s) (fun s => s)
                  "M" "M" " " "a.tx" "t" eq_refl Hq eq_refl eq_refl eq_refl
                  Hno)).
Defined.

Lemma x_leading_blank_sample : Staged (parse " M a.txt") = [".txt"].
Proof.
  assert (Hq : "M"%char <> "?"%char) by discriminate.
  assert (Hno : GoStrings.noNewline ".tx") by (repeat constructor).
  exact (f_equal Staged
           (proj1 (x_leading_blank_shifts_first_line (fun s => s) (fun s => s)
                     "M" "a" ".tx" "t" eq_refl Hq eq_refl eq_refl Hno))).
Defined.

Lemma x_diff_swallows_128 :
  fst (Client.Diff "a.txt" false (sys (worldOf tree128))) = Ok "".
Proof.
  exact (x_diff_swallows_exit_status_1 "a.txt" false (sys (worldOf tree128))
           "exit status 128" eq_refl eq_refl).
Defined.

Lemma m_marked_synced : Selection.synced m_marked.
Proof.
  intros i f Hf.
  assert (Hfiles : files m_marked = [a_marked]) by (vm_compute; reflexivity).
  rewrite Hfiles in Hf. clear Hfiles.
  destruct i as [|[|i]]; cbn in Hf; try discriminate Hf.
  injection Hf as <-. vm_compute. reflexivity.
Qed.

Lemma x_keys_keep_sync_sample :
  Selection.synced (fst (Update (KeyMsg "a") m_marked)).
Proof. exact (x_keys_keep_flags_in_sync "a" m_marked m_marked_synced). Defined.

Lemma x_selected_files_sample : getSelectedFiles m_marked = [a_marked].
Proof.
  exact (proj1 (x_selected_files_are_flagged m_marked m_marked_synced)).
Defined.

Lemma x_refresh_sample :
  In (NewFileItem "a.txt" StatusStaged)
     (getSelectedFiles (fst (Update (gitStatusMsg snapStaged) m_marked))).
Proof.
  exact (proj2 (proj2 (proj2
    (x_refresh_keeps_selected_positions m_marked snapStaged 0
       (NewFileItem "a.txt" StatusStaged) eq_refl eq_refl)))).
Defined.

Lemma x_apply_sample :
  Client.gitCalls (sys (snd (toggleSelectionCmd [a_marked] (worldOf treeA))))
  = [["add"; "--"; "a.txt"]].
Proof.
  assert (Hne : [a_marked] <> []) by discriminate.
  exact (proj1 (x_apply_follows_the_majority [a_marked] (worldOf treeA) Hne)).
Defined.

Lemma x_cache_sample :
  diffCache (snd (toggleSelectionCmd [a_marked] w_cached)) !! "a.txt"
  = Some "diff --git a.txt".
Proof.
  exact (proj1 (x_cache_entries_are_permanent
                  (CmdToggleSelection [a_marked]) w_cached
                  (snd (toggleSelectionCmd [a_marked] w_cached))
                  (fst (toggleSelectionCmd [a_marked] w_cached))
                  "a.txt" "diff --git a.txt" eq_refl eq_refl)).
Defined.

Lemma x_overlay_sample :
  err m_error <> "" /\ fst (Update (KeyMsg "c") m_error) = m_error.
Proof.
  assert (He : err m_error <> "") by (vm_compute; discriminate).
  split; [exact He|].
  exact (proj1 (x_overlay_freezes_keys m_error "c" He)).
Defined.

Lemma x_no_quit_sample : snd (Update (KeyMsg "q") m_date) <> CmdQuit.
Proof.
  assert (Hs : state m_date <> StateFileList) by (vm_compute; discriminate).
  exact (x_no_quit_outside_file_list m_date "q" eq_refl Hs).
Defined.

Lemma x_paging_sample : Update (KeyMsg "pgdn") m_listed = (m_listed, CmdNil).
Proof.
  exact (x_paging_and_search_keys_do_nothing m_listed "pgdn"
           eq_refl eq_refl eq_refl eq_refl).
Defined.

Lemma x_commit_message_sample :
  state (fst (Update (KeyMsg "esc") m_message)) = StateFileList
  /\ err (fst (Update (KeyMsg "ctrl+d") m_message))
     = "Commit message cannot be empty".
Proof.
  destruct (x_commit_message_step m_message eq_refl eq_refl eq_refl)
    as (Hempty & _ & Hesc & _).
  split; [exact Hesc|].
  exact (f_equal (fun r => err (fst r)) (Hempty eq_refl)).
Defined.

Lemma x_commit_date_sample :
  snd (Update (KeyMsg "enter") m_date) = CmdCommit "fix" "".
Proof.
  exact (proj1 (proj1 (x_commit_date_step m_date eq_refl eq_refl eq_refl))).
Defined.

Lemma x_amend_sample :
  state (fst (Update (KeyMsg "ctrl+d") m_amend)) = StateModifyHead.
Proof.
  exact (proj1 (proj2 (x_amend_refuses_empty_message m_amend
                         eq_refl eq_refl eq_refl eq_refl))).
Defined.

Lemma x_narrow_sample :
  Update (KeyMsg "p") (fst (Update (WindowSizeMsg 80 24) m_listed))
  = (fst (Update (WindowSizeMsg 80 24) m_listed), CmdNil).
Proof.
  assert (Hw : 80 < 100) by lia.
  exact (proj1 (proj2 (x_no_preview_focus_when_narrow m_listed 80 24 Hw
                         eq_refl eq_refl eq_refl))).
Defined.

Lemma x_failed_stage_sample :
  fst (toggleSelectionCmd [a_marked] (worldOf tree128))
  = errorMsg ("Failed to stage files: failed to stage files: git add failed: "
              +:+ "exit status 128" +:+ String "010" "" +:+ "").
Proof.
  assert (Hlt : len (map Path (List.filter isStaged [a_marked]))
                < len (map Path (List.filter (fun f => negb (isStaged f))
                                             [a_marked])))
    by (vm_compute; reflexivity).
  exact (x_failed_stage_error_text [a_marked] (worldOf tree128) ""
           "exit status 128" Hlt eq_refl).
Defined.
